(** * The generative-backend orchestration layer of AI-Comci

    A shallow embedding of the service module that turns application state
    (characters, pages, canvas images) into multi-part requests against the
    generative backend and turns the multi-part responses back into typed
    results.

    Conventions of the embedding.
    - A JavaScript string is the Rocq [string] of its UTF-8 bytes.  All the
      characters the code itself inspects (quotes, commas, semicolons, digits,
      ASCII white space) are single bytes, so searching and splitting on them
      byte-wise is searching and splitting on them character-wise.
    - [undefined] and [null] are [None]; the truthiness test of JavaScript is
      written out at every use.
    - An [async] operation is a function of the backend's answer: the backend
      call is the section variable [generateContent], which may itself throw.
    - [throw new Error(m)] is [Throw m]; a value returned is [Ok v].
    - [console.error] is logging only and is left out. *)

From Stdlib Require Import String Ascii List Bool Arith NArith ZArith Lia DecimalString.
Import ListNotations.
Open Scope list_scope.
Open Scope string_scope.

(** ** Strings *)

(** The double quote, built from its code. *)
Definition dq : string := String (ascii_of_nat 34) EmptyString.

(** The line feed, the escape [\n] of the source. *)
Definition nl : string := String (ascii_of_nat 10) EmptyString.

(** A template literal that spans several source lines, one element per line. *)
Definition lines (l : list string) : string := String.concat nl l.

(** An ASCII text in which every apostrophe stands for a double quote; used to
    write JSON payloads legibly. *)
Fixpoint quoted (s : string) : string :=
  match s with
  | EmptyString => EmptyString
  | String c rest =>
      String (if Ascii.eqb c "'" then ascii_of_nat 34 else c) (quoted rest)
  end.

(** JavaScript truthiness of a string: every string but the empty one. *)
Definition truthy (s : string) : bool :=
  match s with
  | EmptyString => false
  | String _ _ => true
  end.

(** Truthiness of a value that may be [undefined] or [null]. *)
Definition truthy_opt (o : option string) : bool :=
  match o with
  | Some s => truthy s
  | None => false
  end.

(** [a || b] on strings where [a] may be [undefined]. *)
Definition or_else (o : option string) (default : string) : string :=
  match o with
  | Some s => if truthy s then s else default
  | None => default
  end.

(** Number to string conversion of a non-negative integer, as a template
    literal performs it. *)
Definition string_of_N (n : N) : string := NilEmpty.string_of_uint (N.to_uint n).

(** String conversion of a value that may be [undefined], as a template
    literal performs it. *)
Definition render (o : option string) : string :=
  match o with
  | Some s => s
  | None => "undefined"
  end.

(** [Array.prototype.join]. *)
Definition join (sep : string) (l : list string) : string := String.concat sep l.

(** [s.startsWith(p)]. *)
Fixpoint startsWith (p s : string) : bool :=
  match p with
  | EmptyString => true
  | String a p' =>
      match s with
      | String b s' => Ascii.eqb a b && startsWith p' s'
      | EmptyString => false
      end
  end.

(** [s.includes(t)]: [t] occurs in [s]. *)
Fixpoint includes (t s : string) : bool :=
  if startsWith t s then true
  else match s with
       | EmptyString => false
       | String _ rest => includes t rest
       end.

(** [String.prototype.split] with a one-character separator. *)
Fixpoint split (sep : ascii) (s : string) : list string :=
  match s with
  | EmptyString => [EmptyString]
  | String c rest =>
      if Ascii.eqb c sep then EmptyString :: split sep rest
      else match split sep rest with
           | piece :: pieces => String c piece :: pieces
           | [] => [String c EmptyString]
           end
  end.

(** ** Errors *)

(** The outcome of an operation: a value, or a thrown [Error] with its message. *)
Inductive Result (A : Type) : Type :=
| Ok (a : A)
| Throw (message : string).
Arguments Ok {A} a.
Arguments Throw {A} message.

Definition bind {A B : Type} (r : Result A) (k : A -> Result B) : Result B :=
  match r with
  | Ok a => k a
  | Throw m => Throw m
  end.

Notation "'await' x <- e ;; k" := (bind e (fun x => k))
  (at level 10, x name, e at level 100, k at level 200).

(** ** Data model *)

(** Modelled from the spec: the module [../types] that declares [Character]
    is not among the sources; the fields are the ones the service reads. *)
Record Character : Type := {
  name : string;
  description : option string;
  sheetImage : string;
  referenceImages : list string
}.

(** Modelled from the spec: the module [../types] that declares [Page] is not
    among the sources; the service picks [generatedImage] (absent until a
    generation succeeds) and [sceneDescription]. *)
Record Page : Type := {
  generatedImage : option string;
  sceneDescription : string
}.

(** The previous page as [generateLayoutProposal] declares it inline. *)
Record ProposalPage : Type := {
  proposalImage : string;
  proposal_sceneDescription : string
}.

Inductive ColorMode : Type := color | monochrome.

(** Inline binary data of a part.  [data] is [undefined] when the part was
    built from a string without a comma. *)
Record Blob : Type := {
  data : option string;
  mimeType : string
}.

(** A part of a request or of a response: text, inline data, or (in a
    response) possibly both or neither. *)
Record Part : Type := {
  inlineData : option Blob;
  text : option string
}.

(** The object literal [{ text: t }]. *)
Definition textPart (t : string) : Part :=
  {| inlineData := None; text := Some t |}.

Record Content : Type := { parts : list Part }.
Record Candidate : Type := { content : Content }.

(** The backend's answer.  [response_text] is the accessor [response.text]. *)
Record GenerateContentResponse : Type := {
  candidates : option (list Candidate);
  response_text : option string
}.

(** ** Image codec *)

(** The character class of [.] excludes the line terminators LF, CR, U+2028
    and U+2029; the last two are E2 80 A8 and E2 80 A9 in UTF-8. *)
Definition lineTerminatorAt (s : string) : bool :=
  match s with
  | String c rest =>
      (Ascii.eqb c (ascii_of_nat 10)) || (Ascii.eqb c (ascii_of_nat 13))
      || (startsWith (String (ascii_of_nat 226) (String (ascii_of_nat 128)
                                  (String (ascii_of_nat 168) EmptyString))) s)
      || (startsWith (String (ascii_of_nat 226) (String (ascii_of_nat 128)
                                  (String (ascii_of_nat 169) EmptyString))) s)
  | EmptyString => false
  end.

(** The lazy [.*?] followed by [;]: the shortest run of characters other than
    line terminators that ends just before a semicolon. *)
Fixpoint lazyUntilSemicolon (s : string) : option string :=
  match s with
  | EmptyString => None
  | String c rest =>
      if Ascii.eqb c ";" then Some EmptyString
      else if lineTerminatorAt s then None
      else option_map (String c) (lazyUntilSemicolon rest)
  end.

(** Remove the first [n] characters. *)
Fixpoint drop (n : nat) (s : string) : string :=
  match n, s with
  | O, _ => s
  | S n', String _ rest => drop n' rest
  | S _, EmptyString => EmptyString
  end.

(** The pattern [/data:(image\/.*?);/] tried at the start of [s]: the text of
    its capture group. *)
Definition matchMimeHere (s : string) : option string :=
  if startsWith "data:image/" s
  then option_map (String.append "image/") (lazyUntilSemicolon (drop 11 s))
  else None.

(** [s.match(/data:(image\/.*?);/)?.[1]]: the capture group of the leftmost
    match, [undefined] when the pattern matches nowhere. *)
Fixpoint matchMime (s : string) : option string :=
  match matchMimeHere s with
  | Some m => Some m
  | None =>
      match s with
      | EmptyString => None
      | String _ rest => matchMime rest
      end
  end.

(** The expression [image.match(/data:(image\/.*?);/)?.[1] || 'image/png']
    that precedes every call of [base64ToGeminiPart]. *)
Definition mimeTypeOf (image : string) : string :=
  or_else (matchMime image) "image/png".

Definition base64ToGeminiPart (base64 : string) (mimeType : string) : Part :=
  {| inlineData := Some {| data := nth_error (split "," base64) 1;
                           mimeType := mimeType |};
     text := None |}.

(** An image attached to a request: its media type sniffed, then wrapped. *)
Definition attach (image : string) : Part :=
  base64ToGeminiPart image (mimeTypeOf image).

(** The template [`data:${mimeType};base64,${data}`] that turns the inline
    data of a response part back into an encoded image. *)
Definition dataUrl (b : Blob) : string :=
  "data:" ++ mimeType b ++ ";base64," ++ render (data b).

(** ** JSON values and [JSON.parse] *)

(** A JSON number, kept as the exact decimal [(-1)^negative * mantissa *
    10^exponent] that its literal denotes.  JavaScript rounds it to the nearest
    double; the service observes a number only through its truthiness. *)
Record Decimal : Type := {
  negative : bool;
  mantissa : N;
  exponent : Z
}.

#[warnings="-register-all"]
Inductive json : Type :=
| JNull
| JBool (b : bool)
| JNumber (d : Decimal)
| JString (s : string)
| JArray (elements : list json)
| JObject (members : list (string * json)).

(** Own properties of a parsed object, in creation order.  A repeated key
    overwrites the value in place, as [JSON.parse] does. *)
Fixpoint setMember (k : string) (v : json) (fields : list (string * json))
  : list (string * json) :=
  match fields with
  | [] => [(k, v)]
  | (k', v') :: rest =>
      if String.eqb k' k then (k, v) :: rest else (k', v') :: setMember k v rest
  end.

Fixpoint getMember (k : string) (fields : list (string * json)) : option json :=
  match fields with
  | [] => None
  | (k', v) :: rest => if String.eqb k' k then Some v else getMember k rest
  end.

(** [v.k] for a parsed value [v] other than [null] and a property name [k]
    that no prototype defines (summary, panels, has_discrepancies, ...): the
    own property of an object, [undefined] on arrays and primitives. *)
Definition getProperty (k : string) (v : json) : option json :=
  match v with
  | JObject fields => getMember k fields
  | _ => None
  end.

(** A number is falsy when its double is zero: the decimal is zero or rounds
    to zero, that is, its magnitude is at most [2^-1075], half the least
    positive double. *)
Definition roundsToZero (d : Decimal) : bool :=
  (mantissa d =? 0)%N
  || ((exponent d <? 0)%Z
      && (Z.of_N (mantissa d) * 2 ^ 1075 <=? 10 ^ (- exponent d))%Z).

(** JavaScript truthiness of a parsed value, [None] being [undefined]. *)
Definition truthyValue (o : option json) : bool :=
  match o with
  | None => false
  | Some JNull => false
  | Some (JBool b) => b
  | Some (JNumber d) => negb (roundsToZero d)
  | Some (JString s) => truthy s
  | Some (JArray _) => true
  | Some (JObject _) => true
  end.

(** [Array.isArray]. *)
Definition isArray (o : option json) : bool :=
  match o with
  | Some (JArray _) => true
  | _ => false
  end.

Module Lexer.

(** The character with code [n]. *)
Definition isChar (n : nat) (c : ascii) : bool := Nat.eqb (nat_of_ascii c) n.

(** JSON white space: space, tab, line feed, carriage return. *)
Definition isWhite (c : ascii) : bool :=
  let n := nat_of_ascii c in
  ((n =? 32) || (n =? 9) || (n =? 10) || (n =? 13))%nat.

Fixpoint skipWhite (s : string) : string :=
  match s with
  | String c rest => if isWhite c then skipWhite rest else s
  | EmptyString => s
  end.

Definition digitValue (c : ascii) : option N :=
  let n := nat_of_ascii c in
  if ((48 <=? n) && (n <=? 57))%nat then Some (N.of_nat (n - 48)) else None.

Definition hexValue (c : ascii) : option N :=
  let n := nat_of_ascii c in
  if ((48 <=? n) && (n <=? 57))%nat then Some (N.of_nat (n - 48))
  else if ((65 <=? n) && (n <=? 70))%nat then Some (N.of_nat (n - 55))
  else if ((97 <=? n) && (n <=? 102))%nat then Some (N.of_nat (n - 87))
  else None.

Definition hex4 (h1 h2 h3 h4 : ascii) : option N :=
  match hexValue h1, hexValue h2, hexValue h3, hexValue h4 with
  | Some a, Some b, Some c, Some d => Some (((a * 16 + b) * 16 + c) * 16 + d)%N
  | _, _, _, _ => None
  end.

(** The character a two-character escape stands for. *)
Definition simpleEscape (e : ascii) : option ascii :=
  let n := nat_of_ascii e in
  if (n =? 34)%nat then Some e
  else if (n =? 92)%nat then Some e
  else if (n =? 47)%nat then Some e
  else if (n =? 98)%nat then Some (ascii_of_nat 8)
  else if (n =? 102)%nat then Some (ascii_of_nat 12)
  else if (n =? 110)%nat then Some (ascii_of_nat 10)
  else if (n =? 114)%nat then Some (ascii_of_nat 13)
  else if (n =? 116)%nat then Some (ascii_of_nat 9)
  else None.

(** What a string literal holds: bytes copied from the text, and the UTF-16
    code units written as [\uXXXX]. *)
Inductive StringItem : Type :=
| Literal (c : ascii)
| Escaped (unit : N).

Definition prepend (i : StringItem) (r : option (list StringItem * string))
  : option (list StringItem * string) :=
  match r with
  | Some (items, rest) => Some (i :: items, rest)
  | None => None
  end.

(** The body of a string literal, after its opening quote: the items up to
    the closing quote and the text after it. *)
Fixpoint scanString (s : string) : option (list StringItem * string) :=
  match s with
  | EmptyString => None
  | String c rest =>
      if isChar 34 c then Some ([], rest)
      else if isChar 92 c then
        match rest with
        | EmptyString => None
        | String e rest1 =>
            if isChar 117 e then
              match rest1 with
              | String h1 (String h2 (String h3 (String h4 rest2))) =>
                  match hex4 h1 h2 h3 h4 with
                  | Some u => prepend (Escaped u) (scanString rest2)
                  | None => None
                  end
              | _ => None
              end
            else
              match simpleEscape e with
              | Some c' => prepend (Literal c') (scanString rest1)
              | None => None
              end
        end
      else if (nat_of_ascii c <? 32)%nat then None
      else prepend (Literal c) (scanString rest)
  end.

Definition byte (n : N) : ascii := ascii_of_N n.

(** UTF-8 of a code point; a lone surrogate gets the three-byte form. *)
Definition utf8 (cp : N) : string :=
  (if cp <? 128 then String (byte cp) EmptyString
   else if cp <? 2048 then
     String (byte (192 + cp / 64)) (String (byte (128 + cp mod 64)) EmptyString)
   else if cp <? 65536 then
     String (byte (224 + cp / 4096))
       (String (byte (128 + (cp / 64) mod 64))
          (String (byte (128 + cp mod 64)) EmptyString))
   else
     String (byte (240 + cp / 262144))
       (String (byte (128 + (cp / 4096) mod 64))
          (String (byte (128 + (cp / 64) mod 64))
             (String (byte (128 + cp mod 64)) EmptyString))))%N.

Definition isHighSurrogate (u : N) : bool := ((55296 <=? u) && (u <=? 56319))%N.
Definition isLowSurrogate (u : N) : bool := ((56320 <=? u) && (u <=? 57343))%N.

(** The string value of a literal: escaped surrogate pairs are joined into
    one code point. *)
Fixpoint stringValue (items : list StringItem) : string :=
  match items with
  | [] => EmptyString
  | Literal c :: rest => String c (stringValue rest)
  | Escaped hi :: rest =>
      match rest with
      | Escaped lo :: rest' =>
          if isHighSurrogate hi && isLowSurrogate lo
          then utf8 (65536 + (hi - 55296) * 1024 + (lo - 56320))%N ++ stringValue rest'
          else utf8 hi ++ stringValue rest
      | _ => utf8 hi ++ stringValue rest
      end
  end.

(** The longest run of decimal digits at the start of [s], as the number it
    denotes and its length, and the text after it. *)
Fixpoint spanDigits (acc : N) (len : nat) (s : string) : N * nat * string :=
  match s with
  | EmptyString => (acc, len, s)
  | String c rest =>
      match digitValue c with
      | Some d => spanDigits (acc * 10 + d)%N (S len) rest
      | None => (acc, len, s)
      end
  end.

(** The integer part: a single [0], or a run of digits that starts with
    another digit. *)
Definition scanInt (s : string) : option (N * string) :=
  match s with
  | EmptyString => None
  | String c rest =>
      match digitValue c with
      | None => None
      | Some d =>
          if (d =? 0)%N then Some (0%N, rest)
          else let '(n, _, r) := spanDigits 0 0 s in Some (n, r)
      end
  end.

(** The optional fraction: the mantissa extended by its digits, their
    count, and the text after it. *)
Definition scanFraction (int : N) (s : string) : option (N * nat * string) :=
  match s with
  | String c rest =>
      if isChar 46 c then
        let '(n, len, r) := spanDigits int 0 rest in
        if (len =? 0)%nat then None else Some (n, len, r)
      else Some (int, 0, s)
  | EmptyString => Some (int, 0, s)
  end.

(** The optional exponent and the text after it. *)
Definition scanExponent (s : string) : option (Z * string) :=
  match s with
  | String c rest =>
      if isChar 101 c || isChar 69 c then
        let '(sign, digits) :=
          match rest with
          | String c' r =>
              if isChar 43 c' then (1%Z, r)
              else if isChar 45 c' then ((-1)%Z, r)
              else (1%Z, rest)
          | EmptyString => (1%Z, rest)
          end in
        let '(n, len, r) := spanDigits 0 0 digits in
        if (len =? 0)%nat then None else Some ((sign * Z.of_N n)%Z, r)
      else Some (0%Z, s)
  | EmptyString => Some (0%Z, s)
  end.

Definition scanNumber (s : string) : option (Decimal * string) :=
  let '(neg, s1) :=
    match s with
    | String c r => if isChar 45 c then (true, r) else (false, s)
    | EmptyString => (false, s)
    end in
  match scanInt s1 with
  | None => None
  | Some (int, s2) =>
      match scanFraction int s2 with
      | None => None
      | Some (m, len, s3) =>
          match scanExponent s3 with
          | None => None
          | Some (e, s4) =>
              Some ({| negative := neg; mantissa := m;
                       exponent := (e - Z.of_nat len)%Z |}, s4)
          end
      end
  end.

End Lexer.

Module Parser.
Import Lexer.

(** The outcome of parsing a prefix of a text. *)
Inductive Parse (A : Type) : Type :=
| Parsed (a : A) (rest : string)
| SyntaxError
| OutOfFuel.
Arguments Parsed {A} a rest.
Arguments SyntaxError {A}.
Arguments OutOfFuel {A}.

(** A value, the elements of an array after its opening bracket, and the
    members of an object after its opening brace. *)
Fixpoint parseValue (fuel : nat) (s : string) : Parse json :=
  match fuel with
  | O => OutOfFuel
  | S fuel' =>
      match skipWhite s with
      | EmptyString => SyntaxError
      | String c rest =>
          if isChar 123 c then
            match skipWhite rest with
            | String c' r =>
                if isChar 125 c' then Parsed (JObject []) r
                else parseMembers fuel' [] rest
            | EmptyString => SyntaxError
            end
          else if isChar 91 c then
            match skipWhite rest with
            | String c' r =>
                if isChar 93 c' then Parsed (JArray []) r
                else parseElements fuel' [] rest
            | EmptyString => SyntaxError
            end
          else if isChar 34 c then
            match scanString rest with
            | Some (items, r) => Parsed (JString (stringValue items)) r
            | None => SyntaxError
            end
          else if startsWith "true" (String c rest) then
            Parsed (JBool true) (drop 4 (String c rest))
          else if startsWith "false" (String c rest) then
            Parsed (JBool false) (drop 5 (String c rest))
          else if startsWith "null" (String c rest) then
            Parsed JNull (drop 4 (String c rest))
          else
            match scanNumber (String c rest) with
            | Some (d, r) => Parsed (JNumber d) r
            | None => SyntaxError
            end
      end
  end
with parseElements (fuel : nat) (acc : list json) (s : string) : Parse json :=
  match fuel with
  | O => OutOfFuel
  | S fuel' =>
      match parseValue fuel' s with
      | Parsed v r =>
          match skipWhite r with
          | String c r' =>
              if isChar 44 c then parseElements fuel' (acc ++ [v]) r'
              else if isChar 93 c then Parsed (JArray (acc ++ [v])) r'
              else SyntaxError
          | EmptyString => SyntaxError
          end
      | SyntaxError => SyntaxError
      | OutOfFuel => OutOfFuel
      end
  end
with parseMembers (fuel : nat) (acc : list (string * json)) (s : string) : Parse json :=
  match fuel with
  | O => OutOfFuel
  | S fuel' =>
      match skipWhite s with
      | String q r =>
          if isChar 34 q then
            match scanString r with
            | Some (items, r1) =>
                match skipWhite r1 with
                | String colon r2 =>
                    if isChar 58 colon then
                      match parseValue fuel' r2 with
                      | Parsed v r3 =>
                          let acc' := setMember (stringValue items) v acc in
                          match skipWhite r3 with
                          | String c r4 =>
                              if isChar 44 c then parseMembers fuel' acc' r4
                              else if isChar 125 c then Parsed (JObject acc') r4
                              else SyntaxError
                          | EmptyString => SyntaxError
                          end
                      | SyntaxError => SyntaxError
                      | OutOfFuel => OutOfFuel
                      end
                    else SyntaxError
                | EmptyString => SyntaxError
                end
            | None => SyntaxError
            end
          else SyntaxError
      | EmptyString => SyntaxError
      end
  end.

(** Two units of fuel per character always suffice (lemma [fuel_suffices]). *)
Definition fuelFor (s : string) : nat := 2 * String.length s + 1.

(** A whole text: one value between optional white space. [None] is the
    [SyntaxError] that [JSON.parse] throws. *)
Definition parseText (s : string) : option json :=
  match parseValue (fuelFor s) s with
  | Parsed v rest =>
      match skipWhite rest with
      | EmptyString => Some v
      | String _ _ => None
      end
  | SyntaxError => None
  | OutOfFuel => None
  end.

End Parser.

(** [JSON.parse(text)]: the argument is converted to a string first, so
    [undefined] is parsed as the nine letters of its name and rejected. *)
Definition JSON_parse (text : option string) : option json :=
  Parser.parseText (render text).

(** ** Response schemas *)

(** The schema descriptors the service sends with a structured request. *)
#[warnings="-register-all"]
Inductive Schema : Type :=
| TypeString (description : option string)
| TypeInteger (description : option string)
| TypeBoolean
| TypeArray (description : option string) (items : Schema)
| TypeObject (properties : list (string * Schema)) (required : list string).

(** For comparison with the spec: the exact decimal is a whole number. *)
Definition isWhole (d : Decimal) : bool :=
  (0 <=? exponent d)%Z
  || (Z.of_N (mantissa d) mod 10 ^ (- exponent d) =? 0)%Z.

(** For comparison with the spec: a value has the declared shape when every
    required field is present and every declared field that is present has the
    declared type. *)
Fixpoint conforms (schema : Schema) (v : json) : bool :=
  match schema with
  | TypeString _ => match v with JString _ => true | _ => false end
  | TypeInteger _ => match v with JNumber d => isWhole d | _ => false end
  | TypeBoolean => match v with JBool _ => true | _ => false end
  | TypeArray _ items =>
      match v with
      | JArray elements => forallb (conforms items) elements
      | _ => false
      end
  | TypeObject properties required =>
      match v with
      | JObject fields =>
          forallb (fun k => match getMember k fields with
                            | Some _ => true
                            | None => false
                            end) required
          && (fix declared (ps : list (string * Schema)) : bool :=
                match ps with
                | [] => true
                | (k, sub) :: ps' =>
                    match getMember k fields with
                    | Some x => conforms sub x
                    | None => true
                    end && declared ps'
                end) properties
      | _ => false
      end
  end.


(** ** Requests *)

Inductive Modality : Type := IMAGE | TEXT.

(** The [config] object of a request: the response modalities of the
    image-producing operations, or the JSON mime type and schema of the
    structured ones. *)
Inductive GenerationConfig : Type :=
| ResponseModalities (responseModalities : list Modality)
| ResponseJson (responseMimeType : string) (responseSchema : Schema).

Record GenerateContentParameters : Type := {
  model : string;
  contents : Content;
  config : GenerationConfig
}.

(** The request of every image-producing operation. *)
Definition imageRequest (requestParts : list Part) : GenerateContentParameters :=
  {| model := "gemini-2.5-flash-image-preview";
     contents := {| parts := requestParts |};
     config := ResponseModalities [IMAGE; TEXT] |}.

(** ** Reading a response *)

Definition isSome {A : Type} (o : option A) : bool :=
  match o with
  | Some _ => true
  | None => false
  end.

(** [!response.candidates?.length]. *)
Definition noCandidates (response : GenerateContentResponse) : bool :=
  match candidates response with
  | Some (_ :: _) => false
  | Some [] => true
  | None => true
  end.

(** [response.candidates[0].content.parts], read once [noCandidates] is false. *)
Definition firstParts (response : GenerateContentResponse) : list Part :=
  match candidates response with
  | Some (candidate :: _) => parts (content candidate)
  | _ => []
  end.

(** [parts.find(part => part.inlineData)]. *)
Definition findInlineData (ps : list Part) : option Part :=
  find (fun part => isSome (inlineData part)) ps.

(** [parts.find(part => part.text)]. *)
Definition findText (ps : list Part) : option Part :=
  find (fun part => truthy_opt (text part)) ps.

(** [imagePartResponse?.inlineData]. *)
Definition inlineDataOf (found : option Part) : option Blob :=
  match found with
  | Some part => inlineData part
  | None => None
  end.

(** [textPartResponse?.text]. *)
Definition textOf (found : option Part) : option string :=
  match found with
  | Some part => text part
  | None => None
  end.

(** The failure that quotes the model's own words. *)
Definition noImageResponse (t : string) : string :=
  "The AI did not return an image. Response: " ++ dq ++ t ++ dq.

(** ** Story suggestion *)

Definition storySuggestionSchema : Schema :=
  TypeObject
    [ ("summary", TypeString (Some "A brief, one-sentence summary of the page's story."));
      ("panels",
        TypeArray (Some "An array of panel objects, describing the scene.")
          (TypeObject
             [ ("panel", TypeInteger (Some "The panel number (e.g., 1, 2, 3)."));
               ("description", TypeString (Some "A description of the visual action, camera angle, character expressions, or environment in the panel."));
               ("dialogue", TypeString (Some ("The dialogue spoken by a character in the panel. Format as 'Character Name: " ++ dq ++ "Line of dialogue" ++ dq ++ "'. Can be empty."))) ]
             [ "panel"; "description" ])) ]
    [ "summary"; "panels" ].

(** The body of [characters.forEach] in the story prompt. *)
Definition characterProfile (char : Character) : string :=
  lines [
      "- **" ++ name char ++ ":** " ++ or_else (description char) "No description provided.";
      EmptyString ].

(** What the body of [previousPages.forEach] appends to the prompt for the
    page at [index]. *)
Definition previousPageLabel (index : nat) (page : Page) : string :=
  lines [
      EmptyString;
      EmptyString;
      "**[Previous Page " ++ string_of_N (N.of_nat index + 1) ++ "]**";
      "*Script:* " ++ sceneDescription page;
      "*Image:* [Image " ++ string_of_N (N.of_nat index + 1) ++ " is attached]" ].

(** [previousPages.forEach((page, index) => ...)]: the prompt and the
    attachments, both extended for each page that has an image and a script. *)
Fixpoint previousPagesLoop (index : nat) (pages : list Page)
    (contextPrompt : string) (previousPagesContent : list Part)
  : string * list Part :=
  match pages with
  | [] => (contextPrompt, previousPagesContent)
  | page :: rest =>
      match generatedImage page with
      | Some image =>
          if truthy image && truthy (sceneDescription page)
          then previousPagesLoop (S index) rest
                 (contextPrompt ++ previousPageLabel index page)
                 (previousPagesContent ++ [attach image])
          else previousPagesLoop (S index) rest contextPrompt previousPagesContent
      | None => previousPagesLoop (S index) rest contextPrompt previousPagesContent
      end
  end.

(** The texts that the story prompt is assembled from, in the order in which
    the source appends them. *)
Definition storyIntro : string :=
  "You are a creative manga scriptwriter. A user wants help writing a script for a single manga page.".

Definition worldviewBlock (worldview : string) : string :=
  lines [
      EmptyString;
      EmptyString;
      "**IMPORTANT WORLDVIEW CONTEXT:**";
      worldview;
      EmptyString;
      "This worldview is the foundational truth of the story. Ensure your suggestions are consistent with these rules." ].

Definition characterHeading : string :=
  lines [
      EmptyString;
      EmptyString;
      "**CHARACTER PROFILES:**";
      EmptyString ].

Definition characterClosing : string :=
  "Incorporate these character traits into their actions and dialogue.".

Definition previousPagesHeading : string :=
  lines [
      EmptyString;
      EmptyString;
      "**PREVIOUS PAGE CONTEXT:**";
      "This new page must be a direct continuation of the previous pages. Here is the context from the immediately preceding pages, in chronological order:" ].

Definition premiseBlock (premise : string) : string :=
  lines [
      EmptyString;
      EmptyString;
      "**USER'S PREMISE FOR THE NEW PAGE:**";
      dq ++ premise ++ dq ].

Definition taskWithPremise : string :=
  lines [
      EmptyString;
      EmptyString;
      "**YOUR TASK:**";
      "Based on all the context provided (worldview, characters, previous pages, user's premise), generate a detailed script for this new manga page." ].

Definition taskWithoutPremise : string :=
  lines [
      EmptyString;
      EmptyString;
      "**YOUR TASK:**";
      "The user has not provided a specific premise. Based on the worldview, characters, and the context from previous pages, propose a logical and interesting next page for the story. Generate a detailed script for this new manga page." ].

Definition storyClosing : string :=
  " Break down the story into 2-4 panels. For each panel, provide a concise description of the action/shot and any character dialogue. Panels can describe environments, objects, or close-ups without characters if it serves the story. **IMPORTANT: All dialogue MUST be in English.**".

(** The prompt as it stands before the previous pages are looked at. *)
Definition storyOpening (worldview : string) (characters : list Character) : string :=
  let contextPrompt := storyIntro in
  let contextPrompt :=
    if truthy worldview
    then contextPrompt ++ worldviewBlock worldview
    else contextPrompt in
  match characters with
  | _ :: _ =>
      fold_left (fun contextPrompt char => contextPrompt ++ characterProfile char)
        characters (contextPrompt ++ characterHeading)
      ++ characterClosing
  | [] => contextPrompt
  end.

(** The prompt and the attachments of the story suggestion. *)
Definition storyContext (premise worldview : string) (characters : list Character)
    (previousPages : option (list Page)) : string * list Part :=
  let contextPrompt := storyOpening worldview characters in
  let '(contextPrompt, previousPagesContent) :=
    match previousPages with
    | Some (first :: others) =>
        previousPagesLoop 0 (first :: others) (contextPrompt ++ previousPagesHeading) []
    | _ => (contextPrompt, [])
    end in
  let contextPrompt :=
    if truthy premise
    then (contextPrompt ++ premiseBlock premise) ++ taskWithPremise
    else contextPrompt ++ taskWithoutPremise in
  let contextPrompt := contextPrompt ++ storyClosing in
  (contextPrompt, previousPagesContent).

Definition storyRequest (premise worldview : string) (characters : list Character)
    (previousPages : option (list Page)) : GenerateContentParameters :=
  let '(contextPrompt, previousPagesContent) :=
    storyContext premise worldview characters previousPages in
  {| model := "gemini-2.5-flash";
     contents := {| parts := textPart contextPrompt :: previousPagesContent |};
     config := ResponseJson "application/json" storySuggestionSchema |}.

Definition invalidStory : string :=
  "The AI returned an invalid story structure. Please try again.".

(** The [try] block of the story suggestion: a syntax error and the error
    thrown by the basic validation are both caught and replaced by
    [invalidStory]. *)
Definition readStorySuggestion (response : GenerateContentResponse) : Result json :=
  match JSON_parse (response_text response) with
  | Some suggestion =>
      if truthyValue (Some suggestion)
         && truthyValue (getProperty "summary" suggestion)
         && isArray (getProperty "panels" suggestion)
      then Ok suggestion
      else Throw invalidStory
  | None => Throw invalidStory
  end.

(** ** Layout proposal *)

Record AspectRatioProfile : Type := {
  w : N;
  h : N;
  value : string
}.

Definition A4 : AspectRatioProfile := {| w := 595; h := 842; value := "210:297" |}.

(** The own properties of the object literal [ASPECT_RATIO_CONFIG]. *)
Definition ASPECT_RATIO_CONFIG : list (string * AspectRatioProfile) :=
  [ ("A4", A4);
    ("Portrait (3:4)", {| w := 600; h := 800; value := "3:4" |});
    ("Square (1:1)", {| w := 800; h := 800; value := "1:1" |});
    ("Widescreen (16:9)", {| w := 1280; h := 720; value := "16:9" |}) ].

(** The properties every object literal inherits from [Object.prototype]:
    eleven functions and the accessor [__proto__], all of them truthy and
    none of them with a property [w], [h] or [value]. *)
Definition objectPrototypeKeys : list string :=
  [ "constructor"; "hasOwnProperty"; "isPrototypeOf"; "propertyIsEnumerable";
    "toLocaleString"; "toString"; "valueOf"; "__proto__";
    "__defineGetter__"; "__defineSetter__"; "__lookupGetter__"; "__lookupSetter__" ].

(** What a property read on [ASPECT_RATIO_CONFIG] can yield. *)
Inductive Member : Type :=
| Own (profile : AspectRatioProfile)
| Inherited (key : string).

Fixpoint ownProperty (key : string) (table : list (string * AspectRatioProfile))
  : option AspectRatioProfile :=
  match table with
  | [] => None
  | (k, profile) :: rest => if String.eqb k key then Some profile else ownProperty key rest
  end.

(** [ASPECT_RATIO_CONFIG[key]]: the own property, else the inherited one,
    else [undefined]. *)
Definition lookupConfig (key : string) : option Member :=
  match ownProperty key ASPECT_RATIO_CONFIG with
  | Some profile => Some (Own profile)
  | None =>
      if existsb (String.eqb key) objectPrototypeKeys
      then Some (Inherited key)
      else None
  end.

(** [ASPECT_RATIO_CONFIG[aspectRatioKey] || ASPECT_RATIO_CONFIG['A4']]. *)
Definition selectConfig (aspectRatioKey : string) : Member :=
  match lookupConfig aspectRatioKey with
  | Some member => member
  | None => Own A4
  end.

Definition config_value (c : Member) : option string :=
  match c with
  | Own profile => Some (value profile)
  | Inherited _ => None
  end.

Definition config_w (c : Member) : option N :=
  match c with
  | Own profile => Some (w profile)
  | Inherited _ => None
  end.

Definition config_h (c : Member) : option N :=
  match c with
  | Own profile => Some (h profile)
  | Inherited _ => None
  end.

(** String conversion of a number that may be [undefined]. *)
Definition renderNumber (o : option N) : string :=
  match o with
  | Some n => string_of_N n
  | None => "undefined"
  end.

Definition visualContinuity : string :=
  lines [
      EmptyString;
      "        **Visual Continuity:**";
      "        This page's layout MUST be a logical continuation of the provided " ++ dq ++ "Previous Page Image" ++ dq ++ ". Analyze its composition and ensure a smooth visual transition. Maintain a consistent artistic style with the previous sketch." ].

Definition layoutPrompt (story : string) (hasCharacters : bool) (config : Member)
    (previousPage : option ProposalPage) : string :=
  let aspectRatioValue := config_value config in
  lines [
      EmptyString;
      "        You are an expert manga storyboard artist. Your task is to create a visual guide for a user by generating a single, rough, grayscale sketch of a manga page.";
      EmptyString;
      "        **Core Objective:**";
      "        Your primary goal is to create a DYNAMIC and VISUALLY INTERESTING panel layout that reflects professional manga storyboarding techniques. The panels should guide the reader's eye and control the pacing of the story.";
      EmptyString;
      "        **Inputs Provided:**";
      "        1.  **Story:** A short narrative for the manga page.";
      "        2.  **Canvas Image:** This is the user's canvas. It may be blank or contain existing drawings. This is your drawing surface.";
      "        3.  **Character Sheets:** " ++ (if hasCharacters then "Reference sheets for characters are provided." else "No character sheets provided.");
      "        " ++ (if isSome previousPage then "4.  **Previous Page Image:** An image of the preceding page for context." else EmptyString);
      EmptyString;
      EmptyString;
      "        **CRITICAL INSTRUCTIONS for the SKETCH:**";
      "        1.  **Dimensions & Aspect Ratio:** The output sketch MUST fill the entire canvas and have an exact aspect ratio of " ++ render aspectRatioValue ++ ". Do not leave any empty margins or padding. The image should be sized appropriately for a canvas of " ++ renderNumber (config_w config) ++ "px width and " ++ renderNumber (config_h config) ++ "px height.";
      "        2.  **Creative Panel Layout:** AVOID simple, boring grid layouts. Use professional techniques:";
      "            - **Dynamic Angles:** Use diagonally cut panels for action or unease.";
      "            - **Overlapping & Inset Panels:** Overlap panels to show simultaneous actions or use inset panels for focus.";
      "            - **Varying Sizes & Shapes:** Mix large and small panels. Use non-rectangular shapes to match the scene's mood.";
      "            - **Panel Breaking:** For high impact, have characters or effects extend beyond the panel borders.";
      "        3.  **Canvas Integration:** The provided " ++ dq ++ "Canvas Image" ++ dq ++ " is your drawing surface. If it contains existing user drawings, you MUST incorporate them into your layout. Propose new panels and elements that complement or complete the user's work. If it is a blank canvas, create a new layout from scratch.";
      "        4.  **Content:**";
      "            - **Sketch, Not Final Art:** Use rough, simple lines and basic shapes. This is a compositional guide.";
      "            - **Character Posing:** " ++ (if hasCharacters then "Place the characters (using their reference sheets for appearance) inside the panels." else "Sketch generic characters inside the panels based on the story.");
      "            - **Character-Free Panels:** If the story describes a panel with only backgrounds or objects, DO NOT draw characters in it. Sketch the described environment instead.";
      "        5.  **ABSOLUTELY NO TEXT:** The final output image MUST NOT contain any text, labels, numbers, or annotations. It must be a pure visual sketch ONLY.";
      "        " ++ (if isSome previousPage then visualContinuity else EmptyString);
      EmptyString;
      "        **Story to Illustrate:**";
      "        ---";
      "        " ++ story;
      "        ---";
      "    " ].

Definition layoutParts (story : string) (characters : list Character)
    (aspectRatioKey : string) (previousPage : option ProposalPage)
    (currentCanvasImage : option string) : list Part :=
  let config := selectConfig aspectRatioKey in
  let hasCharacters := Nat.ltb 0 (length characters) in
  let characterParts :=
    if hasCharacters
    then map (fun char => attach (sheetImage char)) characters
    else [] in
  let prompt := layoutPrompt story hasCharacters config previousPage in
  let parts := [textPart prompt] in
  let parts :=
    match currentCanvasImage with
    | Some image => if truthy image then (parts ++ [attach image])%list else parts
    | None => parts
    end in
  let parts :=
    match previousPage with
    | Some page =>
        if truthy (proposalImage page)
        then (parts ++ [attach (proposalImage page)])%list
        else parts
    | None => parts
    end in
  (parts ++ characterParts)%list.

Definition readLayoutProposal (response : GenerateContentResponse) : Result string :=
  if noCandidates response
  then Throw "The AI did not return a valid response for the layout proposal."
  else
    let imagePartResponse := findInlineData (firstParts response) in
    let textPartResponse := findText (firstParts response) in
    match inlineDataOf imagePartResponse with
    | None =>
        match textOf textPartResponse with
        | Some t =>
            if truthy t then Throw (noImageResponse t)
            else Throw "The AI did not return an image for the layout proposal."
        | None => Throw "The AI did not return an image for the layout proposal."
        end
    | Some image => Ok (dataUrl image)
    end.

(** ** Character sheets *)

Definition characterSheetPrompt (characterName : string) (colorMode : ColorMode) : string :=
  lines [
      EmptyString;
      "        You are a professional manga artist. Your task is to create a character reference sheet for a character named " ++ dq ++ characterName ++ dq ++ ".";
      EmptyString;
      "        **Instructions:**";
      "        1.  **Reference Images:** You have been provided with multiple reference images. Synthesize the key features from ALL of them to create a single, cohesive character design. For example, if one image shows a scar and another shows the character's hairstyle, include both in the final design.";
      "        2.  **Style:** Generate the sheet in a clean, " ++ (match colorMode with monochrome => "black and white (monochrome)" | color => "full color" end) ++ " manga style, suitable for an artist's reference.";
      "        3.  **Content & Layout:** The character sheet must include exactly six poses, arranged in two rows:";
      "            - **Top Row (Headshots):** Three headshots showing different views and expressions (e.g., side view, front view neutral expression, front view smiling).";
      "            - **Bottom Row (Full Body):** Three full-body views (front, side, and back).";
      "        4.  **Output:** Generate ONLY the final character sheet as a single image. Do NOT include any text, labels, names, descriptions, or explanations in your response. The output must be the image and nothing else.";
      "    " ].

Definition characterSheetParts (referenceImagesBase64 : list string)
    (characterName : string) (colorMode : ColorMode) : list Part :=
  let imageParts := map attach referenceImagesBase64 in
  textPart (characterSheetPrompt characterName colorMode) :: imageParts.

Definition characterFromReferencePrompt (characterName characterConcept : string)
    (colorMode : ColorMode) : string :=
  lines [
      EmptyString;
      "        You are a professional manga artist. Your task is to create a **completely new and original character** named " ++ dq ++ characterName ++ dq ++ " by using existing character sheets purely as **ART STYLE REFERENCES**.";
      EmptyString;
      "        **CRITICAL INSTRUCTIONS - READ CAREFULLY:**";
      "        1.  **ART STYLE ONLY:** You have been provided with character sheets to be used as **art style references only**. Analyze their line art, coloring style (if applicable), shading techniques, and overall aesthetic. Your final output's art style MUST be a synthesis of these references.";
      "        2.  **DO NOT COPY THE REFERENCE CHARACTERS. THIS IS THE MOST IMPORTANT RULE.** You are creating a **NEW** character from the ground up. You are strictly forbidden from copying or closely imitating the designs, physical features (hair style, face shape, eyes), clothing, accessories, or identities of the characters in the reference sheets. The references are for the drawing *style*, not the character *design*.";
      "        3.  **NEW CHARACTER CONCEPT:** The new character, " ++ dq ++ characterName ++ dq ++ ", MUST be based ENTIRELY on the following description: " ++ dq ++ characterConcept ++ dq ++ ". This description is the single source of truth for the character's appearance and design.";
      "        4.  **Style:** Generate the sheet in a clean, " ++ (match colorMode with monochrome => "black and white (monochrome)" | color => "full color" end) ++ " manga style, matching the reference styles.";
      "        5.  **Content & Layout:** The character sheet must include exactly six poses, arranged in two rows:";
      "            - **Top Row (Headshots):** Three headshots showing different views and expressions (e.g., side view, front view neutral expression, front view smiling).";
      "            - **Bottom Row (Full Body):** Three full-body views (front, side, and back).";
      "        6.  **Output:** Generate ONLY the final character sheet as a single image. Do NOT include any text, labels, names, descriptions, or explanations in your response. The output must be the image and nothing else.";
      "    " ].

Definition characterFromReferenceParts (referenceSheetImagesBase64 : list string)
    (characterName characterConcept : string) (colorMode : ColorMode) : list Part :=
  let imageParts := map attach referenceSheetImagesBase64 in
  textPart (characterFromReferencePrompt characterName characterConcept colorMode)
    :: imageParts.

(** The response handling that [generateCharacterSheet] and
    [generateCharacterFromReference] share word for word. *)
Definition readCharacterSheet (response : GenerateContentResponse) : Result string :=
  if noCandidates response
  then Throw "The AI did not return a valid response for the character sheet. It may have been blocked."
  else
    let imagePartResponse := findInlineData (firstParts response) in
    match inlineDataOf imagePartResponse with
    | Some image => Ok (dataUrl image)
    | None =>
        let textPartResponse := findText (firstParts response) in
        match textOf textPartResponse with
        | Some t =>
            if truthy t then Throw (noImageResponse t)
            else Throw "The AI did not return an image for the character sheet."
        | None => Throw "The AI did not return an image for the character sheet."
        end
    end.

Definition editCharacterSheetPrompt (characterName editPrompt : string) : string :=
  lines [
      EmptyString;
      "        You are a professional manga artist. Your task is to edit a character reference sheet for a character named " ++ dq ++ characterName ++ dq ++ ".";
      EmptyString;
      "        **Instructions:**";
      "        1.  **Reference Image:** Use the provided character sheet as the base.";
      "        2.  **Edit Request:** The user wants the following modification: " ++ dq ++ editPrompt ++ dq ++ ".";
      "        3.  **Execution:** Apply the requested change to the character across all poses on the sheet. Maintain the existing style, layout, and overall design.";
      "        4.  **Output:** Generate ONLY the final, updated character sheet as a single image. Do not include any text, labels, or explanations.";
      "    " ].

Definition editCharacterSheetParts (sheetImageBase64 characterName editPrompt : string)
  : list Part :=
  let imagePart := attach sheetImageBase64 in
  [ textPart (editCharacterSheetPrompt characterName editPrompt); imagePart ].

Definition readEditedCharacterSheet (response : GenerateContentResponse) : Result string :=
  if noCandidates response
  then Throw "The AI did not return a valid response for the character sheet edit."
  else
    let imagePartResponse := findInlineData (firstParts response) in
    match inlineDataOf imagePartResponse with
    | Some image => Ok (dataUrl image)
    | None => Throw "The AI did not return an updated image for the character sheet."
    end.

(** ** Manga page *)

(** The result of [generateMangaPage]; [caption] is its field [text]. *)
Record GeneratedContent : Type := {
  image : option string;
  caption : option string
}.

(** [previousPage && previousPage.generatedImage]: the page and its image
    when the conjunction is truthy. *)
Definition pageWithImage (previousPage : option Page) : option (Page * string) :=
  match previousPage with
  | Some page =>
      match generatedImage page with
      | Some img => if truthy img then Some (page, img) else None
      | None => None
      end
  | None => None
  end.

(** [characters.map((char, index) => ...)] of the character references. *)
Fixpoint characterReferences (index : nat) (characters : list Character) : list string :=
  match characters with
  | [] => []
  | char :: rest =>
      ("- **" ++ name char ++ ":** Use the character sheet provided as " ++ dq ++ "Character Reference " ++ string_of_N (N.of_nat index + 1) ++ dq ++ ".")
      :: characterReferences (S index) rest
  end.

Definition continuationInstruction (page : Page) : string :=
  lines [
      EmptyString;
      "**CRUCIAL CONTEXT - STORY CONTINUATION:**";
      "This page MUST be a direct continuation of the previous page provided. Analyze the " ++ dq ++ "Previous Page Image" ++ dq ++ " and its script to ensure seamless narrative and artistic continuity. Maintain character appearances, outfits, locations, and a overall mood from the previous page.";
      EmptyString;
      "**Previous Page Script:**";
      "---";
      sceneDescription page;
      "---";
      EmptyString ].

Definition assetsPrompt : string :=
  lines [
      EmptyString;
      "    1.  **Character Sheets:** For each character that appears.";
      "    2.  **Panel Layout with Poses:** An image showing the panel composition for the NEW page. This image ALSO CONTAINS visual pose guides for each character, clearly labeled with the character's name.";
      "    3.  **Scene Script:** A detailed, panel-by-panel description of the actions, expressions, and composition for the NEW page.";
      "  " ].

Module Renumber.

(** The classes [\s] and [\d] and the line terminators, on the ASCII text
    of [assetsPrompt], the only subject of the replacement. *)
Definition isSpace (c : ascii) : bool :=
  let n := nat_of_ascii c in
  ((9 <=? n) && (n <=? 13) || (n =? 32))%nat.

Definition isDigit (c : ascii) : bool :=
  let n := nat_of_ascii c in
  ((48 <=? n) && (n <=? 57))%nat.

Definition isLineTerminator (c : ascii) : bool :=
  let n := nat_of_ascii c in
  ((n =? 10) || (n =? 13))%nat.

(** Where the scan of [/^\s*(\d+)/gm] stands: inside a line, in the white
    space that follows a line start, or in the digits after it. *)
Inductive Scan : Type :=
| Inside
| Leading (spaces : string)
| Digits (digits : string).

Definition afterChar (c : ascii) : Scan :=
  if isLineTerminator c then Leading EmptyString else Inside.

(** [s.replace(/^\s*(\d+)/gm, (match, n) => f(n))]. *)
Fixpoint replace (f : string -> string) (state : Scan) (s : string) : string :=
  match s with
  | EmptyString =>
      match state with
      | Inside => EmptyString
      | Leading spaces => spaces
      | Digits digits => f digits
      end
  | String c rest =>
      match state with
      | Inside => String c (replace f (afterChar c) rest)
      | Leading spaces =>
          if isSpace c then replace f (Leading (spaces ++ String c EmptyString)) rest
          else if isDigit c then replace f (Digits (String c EmptyString)) rest
          else spaces ++ String c (replace f Inside rest)
      | Digits digits =>
          if isDigit c then replace f (Digits (digits ++ String c EmptyString)) rest
          else f digits ++ String c (replace f (afterChar c) rest)
      end
  end.

(** [parseInt(n)] of a run of digits. *)
Definition parseInt (n : string) : N :=
  let '(v, _, _) := Lexer.spanDigits 0 0 n in v.

End Renumber.

(** The assets list with its items renumbered when the previous page takes
    the first place. *)
Definition renumberedAssets (hasPreviousPage : bool) : string :=
  Renumber.replace
    (fun n => "    " ++ (if hasPreviousPage then string_of_N (Renumber.parseInt n + 1) else n))
    (Renumber.Leading EmptyString) assetsPrompt.

Definition mangaPagePrompt (characters : list Character) (sceneDescription : string)
    (colorMode : ColorMode) (previousPage : option Page) (generateEmptyBubbles : bool)
  : string :=
  let charactersInScene := characters in
  let characterReferencePrompt := join nl (characterReferences 0 charactersInScene) in
  let hasPreviousPage := isSome (pageWithImage previousPage) in
  let continuationInstruction :=
    match pageWithImage previousPage with
    | Some (page, _) => continuationInstruction page
    | None => EmptyString
    end in
  let renumberedAssets := renumberedAssets hasPreviousPage in
  lines [
      EmptyString;
      "    You are an expert manga artist. Your task is to create a single manga page based on the provided assets and a detailed script.";
      EmptyString;
      "    **Assets Provided:**";
      "    " ++ (if hasPreviousPage then "1.  **Previous Page Image:** An image of the preceding page for story context." else EmptyString);
      "    " ++ renumberedAssets;
      EmptyString;
      "    **Character References:**";
      "    " ++ characterReferencePrompt;
      "    ";
      "    " ++ continuationInstruction;
      EmptyString;
      "    **Instructions for the NEW page:**";
      "    1.  **Crucial - Match Poses to Characters:** The Panel Layout image labels each pose with a character's name. You MUST use the correct character sheet for the named character and draw them in that pose. If there is a text comment next to a character's pose, use it as a primary instruction for their action.";
      "    2.  **Strictly Follow the Script:** The Scene Script is your guide for expressions, shot composition, and narrative context. Execute these details precisely. If the script describes a scene without characters (e.g., a landscape, a close-up of an object), you MUST draw that scene instead of a character.";
      "    3.  **Character Consistency & Count:** Draw the characters strictly according to their reference sheets for appearance. **Crucially, only draw the number of characters specified in the script and layout guide for each panel. Do not add extra characters or omit specified characters.**";
      "    4.  **Panel Layout & Sizing:** Use the provided panel layout for the comic's structure. **The relative size of each panel in the layout image indicates its narrative importance. Larger panels should depict key moments with more detail, dynamic composition, and focus.**";
      "    5.  **Color & Style:** Create the manga in " ++ (match colorMode with monochrome => "black and white (monochrome)" | color => "full color" end) ++ ". **All text and speech bubbles must have bold, clear, and thick black outlines.**";
      "    6.  **Speech Bubbles:** " ++ (if generateEmptyBubbles then "The panel layout image may contain speech bubble shapes. You MUST draw these speech bubbles, but leave them COMPLETELY EMPTY. Do NOT add any text, dialogue, or sound effects inside them." else "If the script includes dialogue, place it inside the speech bubbles drawn in the panel layout. If there are no bubbles in the layout but there is dialogue, create appropriate bubbles.");
      "    7.  **Final Output:** Generate ONLY the final manga page as a single image. Do not include any text, descriptions, or explanations.";
      EmptyString;
      "    **Scene Script for the NEW Page:**";
      "    ---";
      "    " ++ sceneDescription;
      "    ---";
      "  " ].

Definition mangaPageParts (characters : list Character) (panelLayoutImageBase64 : string)
    (sceneDescription : string) (colorMode : ColorMode) (previousPage : option Page)
    (generateEmptyBubbles : bool) : list Part :=
  let panelLayoutPart := attach panelLayoutImageBase64 in
  let charactersInScene := characters in
  let characterParts := map (fun char => attach (sheetImage char)) charactersInScene in
  let prompt :=
    mangaPagePrompt characters sceneDescription colorMode previousPage
      generateEmptyBubbles in
  let parts := [textPart prompt] in
  let parts :=
    match pageWithImage previousPage with
    | Some (_, previousImage) => (parts ++ [attach previousImage])%list
    | None => parts
    end in
  (parts ++ characterParts ++ [panelLayoutPart])%list.

(** The loop over the parts of the first candidate: every part with inline
    data overwrites the image, every other part with text overwrites the
    caption. *)
Fixpoint collectParts (ps : list Part) (result : GeneratedContent) : GeneratedContent :=
  match ps with
  | [] => result
  | part :: rest =>
      match inlineData part with
      | Some blob =>
          collectParts rest {| image := Some (dataUrl blob); caption := caption result |}
      | None =>
          if truthy_opt (text part)
          then collectParts rest {| image := image result; caption := text part |}
          else collectParts rest result
      end
  end.

Definition readMangaPage (response : GenerateContentResponse) : Result GeneratedContent :=
  let result := {| image := None; caption := None |} in
  if noCandidates response
  then Throw ("The AI did not return a valid response. It may have been blocked. "
              ++ or_else (response_text response) EmptyString)
  else
    let result := collectParts (firstParts response) result in
    if negb (truthy_opt (image result))
    then Throw ("The AI did not return an image. It might have refused the request. "
                ++ or_else (caption result) EmptyString)
    else Ok result.

(** ** Colorization *)

(** The body of [characters.map] in the colorization: the reference images
    of the character, then the sheet, pushed on [characterParts]. *)
Definition pushCharacterParts (characterParts : list Part) (char : Character) : list Part :=
  (fold_left (fun acc refImg => acc ++ [attach refImg]) (referenceImages char) characterParts
   ++ [attach (sheetImage char)])%list.

Definition colorizeCharacterLine (char : Character) : string :=
  "- **" ++ name char ++ ":** Use the provided full-color reference images for ACCURATE color information (hair, eyes, clothing, etc.). Use the black-and-white sheet to understand the character's design and line art.".

Definition colorizePrompt (characters : list Character) : string :=
  let characterReferencePrompt := join nl (map colorizeCharacterLine characters) in
  lines [
      EmptyString;
      "        You are a professional digital colorist for manga. Your task is to fully color a monochrome manga page.";
      EmptyString;
      "        **Assets Provided:**";
      "        1.  **Monochrome Manga Page:** The page that needs to be colored.";
      "        2.  **Character References:** For each character, one or more full-color images and one black-and-white character sheet are provided in sequence.";
      EmptyString;
      "        **Character Color & Design References:**";
      "        " ++ characterReferencePrompt;
      EmptyString;
      "        **Instructions:**";
      "        1.  **Full Colorization:** You must color the ENTIRE page. This includes all characters, objects, backgrounds, and effects within every panel. Do not leave any areas monochrome.";
      "        2.  **CRUCIAL - Accurate Character Colors:** This is the most important rule. You MUST use the provided ORIGINAL, FULL-COLOR reference images to ensure that each character is colored with their correct and consistent color scheme. If multiple color references are given for one character, synthesize the colors logically.";
      "        3.  **Maintain Line Art:** Preserve the original black line art. Do not redraw or alter it. Your primary task is to add color to the provided black and white image, not to create a new drawing.";
      "        4.  **Cohesive Palette:** Ensure the background and environment colors are plausible and create a cohesive mood for the scene.";
      "        5.  **Output:** Generate ONLY the final, fully colored manga page as a single image.";
      "    " ].

Definition colorizeParts (monochromePageBase64 : string) (characters : list Character)
  : list Part :=
  let pagePart := attach monochromePageBase64 in
  let characterParts := fold_left pushCharacterParts characters [] in
  textPart (colorizePrompt characters) :: pagePart :: characterParts.

Definition readColorizedPage (response : GenerateContentResponse) : Result string :=
  if noCandidates response
  then Throw "The AI did not return a valid response for colorization."
  else
    let imagePartResponse := findInlineData (firstParts response) in
    match inlineDataOf imagePartResponse with
    | Some image => Ok (dataUrl image)
    | None => Throw "The AI did not return a colored image."
    end.

(** ** Page edit *)

Definition editMangaPagePrompt (prompt : string) (maskImageBase64 : option string)
    (referenceImagesBase64 : option (list string)) : string :=
  let fullPrompt := "You are a professional manga artist and expert digital editor. Your task is to edit the provided manga page image based on the user's instructions." in
  let fullPrompt :=
    if truthy_opt maskImageBase64
    then fullPrompt ++ lines [
          EmptyString;
          EmptyString;
          "**CRITICAL INSTRUCTIONS FOR MASKING:**";
          "You have been provided with an original image and a mask image. Your task is to **COMPLETELY RE-RENDER** the area of the original image that is **WHITE** in the mask image. ";
          "- The **BLACK** areas of the mask must remain **COMPLETELY UNCHANGED** from the original image. ";
          "- You must apply the user's text prompt to the **ENTIRE WHITE MASKED AREA**. The change should be comprehensive and not subtle.";
          "- Ensure the result blends seamlessly and naturally with the unchanged parts of the image.";
          EmptyString;
          "**User's Request:** " ++ dq ++ prompt ++ dq;
          EmptyString ]
    else fullPrompt ++ lines [
          EmptyString;
          EmptyString;
          "**User's Request:** " ++ dq ++ prompt ++ dq;
          EmptyString;
          "**Instructions:**";
          "Apply the requested changes to the entire image as appropriate.";
          EmptyString ] in
  let fullPrompt :=
    match referenceImagesBase64 with
    | Some (first :: others) =>
        let refs := first :: others in
        fullPrompt ++ lines [
              EmptyString;
              "**IMPORTANT REFERENCE IMAGES:**";
              "You have been provided with " ++ string_of_N (N.of_nat (length refs)) ++ " reference image(s). These may include character sheets or other visual guides.";
              "- If your task involves adding or correcting a character, you **MUST** use the provided reference images to draw them with perfect accuracy to their design, features, and clothing.";
              "- Use these images as the primary source of truth for style and content in your edits." ]
    | _ => fullPrompt
    end in
  fullPrompt ++ lines [
      EmptyString;
      "**Final Output:** You must generate ONLY the final, edited image. Do not include any text, labels, or explanations in your response." ].

Definition editMangaPageParts (originalImageBase64 prompt : string)
    (maskImageBase64 : option string) (referenceImagesBase64 : option (list string))
  : list Part :=
  let originalImagePart := attach originalImageBase64 in
  let fullPrompt := editMangaPagePrompt prompt maskImageBase64 referenceImagesBase64 in
  let parts := [ textPart fullPrompt; originalImagePart ] in
  let parts :=
    match maskImageBase64 with
    | Some mask => if truthy mask then (parts ++ [attach mask])%list else parts
    | None => parts
    end in
  match referenceImagesBase64 with
  | Some refs => fold_left (fun parts refImg => (parts ++ [attach refImg])%list) refs parts
  | None => parts
  end.

Definition readEditedPage (response : GenerateContentResponse) : Result string :=
  if noCandidates response
  then Throw "The AI did not return a valid response for the image edit."
  else
    let imagePartResponse := findInlineData (firstParts response) in
    match inlineDataOf imagePartResponse with
    | Some image => Ok (dataUrl image)
    | None =>
        let textPartResponse := findText (firstParts response) in
        match textOf textPartResponse with
        | Some t =>
            if truthy t then Throw (noImageResponse t)
            else Throw "The AI did not return an edited image."
        | None => Throw "The AI did not return an edited image."
        end
    end.

(** ** Discrepancy analysis *)

Definition analysisSchema : Schema :=
  TypeObject
    [ ("analysis", TypeString None);
      ("has_discrepancies", TypeBoolean);
      ("correction_prompt", TypeString None) ]
    [ "analysis"; "has_discrepancies"; "correction_prompt" ].

Definition analysisPrompt (sceneDescription : string) (characters : list Character)
  : string :=
  let characterInfo := join nl (map (fun c => "- " ++ name c) characters) in
  lines [
      EmptyString;
      "You are a meticulous Quality Assurance assistant for a manga creation tool. Your task is to analyze a generated manga page and suggest corrections if it deviates from the original plan.";
      EmptyString;
      "**Provided Assets:**";
      "1.  **Layout & Pose Guide (Image 1):** This is the user's plan. It shows the panel layout and contains labeled skeleton poses for characters.";
      "2.  **Generated Manga Page (Image 2):** This is the final image produced by the AI artist.";
      "3.  **Scene Script:** The text description of what should happen on the page.";
      "4.  **Character List:** The names of characters involved.";
      EmptyString;
      "**Your Analysis Task:**";
      "Carefully compare the " ++ dq ++ "Generated Manga Page" ++ dq ++ " against the " ++ dq ++ "Layout & Pose Guide" ++ dq ++ " and the " ++ dq ++ "Scene Script" ++ dq ++ ". Look for discrepancies such as:";
      "-   **Missing or Incorrect Characters:** Is a character from the script/guide missing, or is the wrong character used?";
      "-   **Incorrect Poses:** Does the character's pose in the final image significantly differ from the skeleton guide?";
      "-   **Layout Deviations:** Are the panel shapes and arrangement different from the guide?";
      "-   **Script Contradictions:** Does the final image contradict the actions or descriptions in the script?";
      "-   **Character Duplication:** Check if the same character appears multiple times within the same panel or in a way that is logically impossible for the scene. For example, a character cannot be in two places at once unless the script specifies a clone, twin, or magical effect.";
      "-   **Contextual Inappropriateness:** Analyze if characters are placed in situations that contradict their role or the scene's logic. For example, a character who is supposed to be hiding should not be in the open. A character described as sad should not have an inappropriately cheerful pose.";
      EmptyString;
      "**Your Output:**";
      "You MUST respond with a single JSON object with the following structure:";
      "{";
      "  " ++ dq ++ "analysis" ++ dq ++ ": " ++ dq ++ "A brief, human-readable summary of your findings. Describe any discrepancies you found, or state that the image is accurate." ++ dq ++ ",";
      "  " ++ dq ++ "has_discrepancies" ++ dq ++ ": boolean, // true if you found any issues, false otherwise.";
      "  " ++ dq ++ "correction_prompt" ++ dq ++ ": " ++ dq ++ "If has_discrepancies is true, write a detailed, specific, and clear instruction prompt for an image editing AI to fix ALL the identified issues in one go. If false, this should be an empty string." ++ dq;
      "}";
      EmptyString;
      "**Example Correction Prompt:**";
      dq ++ "In the top-left panel, redraw the character 'Kaito' to match the skeleton pose, making sure he is holding a sword. In the bottom panel, add the character 'Anya' who is currently missing; she should be shown looking surprised. On the right, the two instances of 'Kaito' are a mistake, remove the one that is further back. Keep the art style consistent." ++ dq;
      EmptyString;
      "**Scene Script:**";
      "---";
      sceneDescription;
      "---";
      EmptyString;
      "**Characters in Scene:**";
      characterInfo;
      EmptyString ].

Definition analysisRequest (panelLayoutImage generatedImage sceneDescription : string)
    (characters : list Character) : GenerateContentParameters :=
  let layoutPart := attach panelLayoutImage in
  let generatedPart := attach generatedImage in
  let prompt := analysisPrompt sceneDescription characters in
  {| model := "gemini-2.5-flash";
     contents := {| parts := [ textPart prompt; layoutPart; generatedPart ] |};
     config := ResponseJson "application/json" analysisSchema |}.

(** The [try] block of the analysis: the parsed value is returned as it is;
    only a syntax error is caught. *)
Definition readAnalysis (response : GenerateContentResponse) : Result json :=
  match JSON_parse (response_text response) with
  | Some result => Ok result
  | None => Throw "The AI returned an invalid analysis structure."
  end.

(** ** The operations *)

Section Service.

(** [ai.models.generateContent]: one round trip to the backend. *)
Variable generateContent : GenerateContentParameters -> Result GenerateContentResponse.

Definition generateDetailedStorySuggestion (premise worldview : string)
    (characters : list Character) (previousPages : option (list Page)) : Result json :=
  await response <- generateContent (storyRequest premise worldview characters previousPages) ;;
  readStorySuggestion response.

(** The returned string is the field [proposalImage] of the result. *)
Definition generateLayoutProposal (story : string) (characters : list Character)
    (aspectRatioKey : string) (previousPage : option ProposalPage)
    (currentCanvasImage : option string) : Result string :=
  await response <- generateContent
    (imageRequest (layoutParts story characters aspectRatioKey previousPage
                     currentCanvasImage)) ;;
  readLayoutProposal response.

Definition generateCharacterSheet (referenceImagesBase64 : list string)
    (characterName : string) (colorMode : ColorMode) : Result string :=
  await response <- generateContent
    (imageRequest (characterSheetParts referenceImagesBase64 characterName colorMode)) ;;
  readCharacterSheet response.

Definition generateCharacterFromReference (referenceSheetImagesBase64 : list string)
    (characterName characterConcept : string) (colorMode : ColorMode) : Result string :=
  await response <- generateContent
    (imageRequest (characterFromReferenceParts referenceSheetImagesBase64 characterName
                     characterConcept colorMode)) ;;
  readCharacterSheet response.

Definition editCharacterSheet (sheetImageBase64 characterName editPrompt : string)
  : Result string :=
  await response <- generateContent
    (imageRequest (editCharacterSheetParts sheetImageBase64 characterName editPrompt)) ;;
  readEditedCharacterSheet response.

Definition generateMangaPage (characters : list Character)
    (panelLayoutImageBase64 sceneDescription : string) (colorMode : ColorMode)
    (previousPage : option Page) (generateEmptyBubbles : bool)
  : Result GeneratedContent :=
  await response <- generateContent
    (imageRequest (mangaPageParts characters panelLayoutImageBase64 sceneDescription
                     colorMode previousPage generateEmptyBubbles)) ;;
  readMangaPage response.

Definition colorizeMangaPage (monochromePageBase64 : string)
    (characters : list Character) : Result string :=
  await response <- generateContent
    (imageRequest (colorizeParts monochromePageBase64 characters)) ;;
  readColorizedPage response.

Definition editMangaPage (originalImageBase64 prompt : string)
    (maskImageBase64 : option string) (referenceImagesBase64 : option (list string))
  : Result string :=
  await response <- generateContent
    (imageRequest (editMangaPageParts originalImageBase64 prompt maskImageBase64
                     referenceImagesBase64)) ;;
  readEditedPage response.

Definition analyzeAndSuggestCorrections (panelLayoutImage generatedImage
    sceneDescription : string) (characters : list Character) : Result json :=
  await response <- generateContent
    (analysisRequest panelLayoutImage generatedImage sceneDescription characters) ;;
  readAnalysis response.

End Service.

(** ** Worldview *)

(** The request of [generateWorldview]: the same backend call, given the
    prompt as a bare string and no [config]. *)
Record GenerateTextParameters : Type := {
  text_model : string;
  text_contents : string
}.

(** The body of [characters.map] in the worldview prompt. *)
Definition worldviewCharacterLine (c : Character) : string :=
  "- **" ++ name c ++ ":** " ++ or_else (description c) "No description provided.".

Definition worldviewPrompt (characters : list Character) : string :=
  lines [
      "You are a creative world-builder and storyteller. Based on the following list of characters, create a compelling and imaginative worldview or setting for a manga.";
      EmptyString;
      "**Characters:**";
      join nl (map worldviewCharacterLine characters);
      EmptyString;
      "**Your Task:**";
      "- Invent a unique setting (e.g., fantasy kingdom, sci-fi city, modern-day high school with a twist).";
      "- Briefly describe the key rules, conflicts, or mysteries of this world.";
      "- Explain how these characters might fit into or relate to this world.";
      "- The tone should be creative and inspiring for a manga artist.";
      "- Provide the response as a single block of text.";
      EmptyString ].

Section Worldview.

(** [ai.models.generateContent] called with a string as [contents]. *)
Variable generateText : GenerateTextParameters -> Result GenerateContentResponse.

(** The result is [response.text] as it is, [undefined] included. *)
Definition generateWorldview (characters : list Character) : Result (option string) :=
  await response <- generateText {| text_model := "gemini-2.5-flash";
                                    text_contents := worldviewPrompt characters |} ;;
  Ok (response_text response).

End Worldview.

(** ** Vocabulary of the statements *)

(** A run of characters that the lazy [.*?] crosses: it holds no semicolon
    and no line terminator. *)
Fixpoint dotRun (t : string) : bool :=
  match t with
  | EmptyString => true
  | String c rest => negb (Ascii.eqb c ";") && negb (lineTerminatorAt t) && dotRun rest
  end.

Fixpoint noComma (s : string) : bool :=
  match s with
  | EmptyString => true
  | String c rest => negb (Ascii.eqb c ",") && noComma rest
  end.

(** The contract between the two fields of an analysis result. *)
Definition analysisInvariant (r : json) : Prop :=
  (getProperty "has_discrepancies" r = Some (JBool false) ->
   getProperty "correction_prompt" r = Some (JString EmptyString))
  /\ (getProperty "has_discrepancies" r = Some (JBool true) ->
      getProperty "correction_prompt" r <> Some (JString EmptyString)).

(** A part that carries inline data. *)
Definition hasInlineData (part : Part) : bool := isSome (inlineData part).

(** A part that the loop of [generateMangaPage] reads as text. *)
Definition isCaption (part : Part) : bool :=
  negb (isSome (inlineData part)) && truthy_opt (text part).

(** A previous page that has both its image and its script. *)
Definition included (page : Page) : bool :=
  truthy_opt (generatedImage page) && truthy (sceneDescription page).

(** A backend that answers every request with [response]. *)
Definition answering (response : GenerateContentResponse)
  : GenerateContentParameters -> Result GenerateContentResponse :=
  fun _ => Ok response.

(** A response with one candidate made of [ps] and no text of its own. *)
Definition candidateOf (ps : list Part) : GenerateContentResponse :=
  {| candidates := Some [ {| content := {| parts := ps |} |} ];
     response_text := None |}.

(** A structured response whose text is [payload]. *)
Definition payloadOf (payload : string) : GenerateContentResponse :=
  {| candidates := None; response_text := Some payload |}.

(** A parsed value that passes the basic validation of the story
    suggestion: an object with a truthy [summary] and an array [panels]. *)
Definition basicStory (v : json) : Prop :=
  exists fields s l,
    v = JObject fields
    /\ getMember "summary" fields = Some s
    /\ truthyValue (Some s) = true
    /\ getMember "panels" fields = Some (JArray l).

(** The caption the loop of [generateMangaPage] ends with: the text of the
    last part it reads as text. *)
Definition lastCaption (ps : list Part) : option string :=
  match find isCaption (rev ps) with
  | Some part => text part
  | None => None
  end.

(** The pages of a list with their positions, counted from [index]. *)
Fixpoint indexed (index : nat) (pages : list Page) : list (nat * Page) :=
  match pages with
  | [] => []
  | page :: rest => (index, page) :: indexed (S index) rest
  end.

(** The image of a page, empty when the page has none. *)
Definition imageOf (page : Page) : string :=
  match generatedImage page with
  | Some img => img
  | None => EmptyString
  end.

(** The texts of a list, one after the other. *)
Definition concatAll (l : list string) : string := fold_right String.append EmptyString l.

(** The keys of the four aspect-ratio presets. *)
Definition presetKeys : list string :=
  [ "A4"; "Portrait (3:4)"; "Square (1:1)"; "Widescreen (16:9)" ].

(** ** Sample data *)

Definition kaito : Character :=
  {| name := "Kaito";
     description := Some "A young swordsman.";
     sheetImage := "data:image/png;base64,S0FJVE8=";
     referenceImages := [ "data:image/jpeg;base64,UkVGMQ==" ] |}.

Definition anya : Character :=
  {| name := "Anya";
     description := None;
     sheetImage := "data:image/webp;base64,QU5ZQQ==";
     referenceImages := [] |}.

Definition canvas : string := "data:image/png;base64,Q0FOVkFT".

Definition layoutImage : string := "data:image/png;base64,TEFZT1VU".

Definition previousSketch : ProposalPage :=
  {| proposalImage := "data:image/gif;base64,U0tFVENI";
     proposal_sceneDescription := "Kaito enters the dojo." |}.

Definition finishedPage : Page :=
  {| generatedImage := Some "data:image/jpeg;base64,UEFHRTE=";
     sceneDescription := "Kaito enters the dojo." |}.

Definition pageWithoutImage : Page :=
  {| generatedImage := None;
     sceneDescription := "Anya waits outside." |}.

(** An analysis that reports no discrepancy and still asks for a correction. *)
Definition inconsistentAnalysis : string :=
  quoted "{'analysis':'The page matches the plan.','has_discrepancies':false,'correction_prompt':'Redraw Kaito.'}".

Definition inconsistentResult : json :=
  JObject [ ("analysis", JString "The page matches the plan.");
            ("has_discrepancies", JBool false);
            ("correction_prompt", JString "Redraw Kaito.") ].

(** An analysis that reports no discrepancy and asks for nothing. *)
Definition consistentAnalysis : string :=
  quoted "{'analysis':'The page matches the plan.','has_discrepancies':false,'correction_prompt':''}".

(** A story whose panels are numbers instead of panel objects. *)
Definition malformedPanels : string := quoted "{'summary':'Test','panels':[1]}".

Definition malformedStory : json :=
  JObject [ ("summary", JString "Test");
            ("panels", JArray [ JNumber {| negative := false; mantissa := 1;
                                           exponent := 0 |} ]) ].

(** A payload that holds a summary and no [panels]. *)
Definition summaryOnly : string := quoted "{'summary':'Test'}".

Definition refusal : string := "I cannot edit this image.".

Definition pngA : Blob := {| data := Some "QUFBQQ=="; mimeType := "image/png" |}.
Definition jpegB : Blob := {| data := Some "QkJCQg=="; mimeType := "image/jpeg" |}.

(** A candidate with two images and two texts. *)
Definition twoOfEach : list Part :=
  [ {| inlineData := Some pngA; text := None |};
    textPart "first";
    {| inlineData := Some jpegB; text := None |};
    textPart "second" ].

(** ** Vocabulary of the further properties *)

(** An attachment as every operation builds it: inline data with a media
    type under [image/] and no text. *)
Definition isImageAttachment (part : Part) : Prop :=
  text part = None
  /\ exists payload t,
       inlineData part = Some {| data := payload; mimeType := "image/" ++ t |}.

(** The shape of the parts of a request: one text instruction, then image
    attachments only. *)
Definition instructionThenImages (ps : list Part) : Prop :=
  exists prompt attachments,
    ps = textPart prompt :: attachments /\ Forall isImageAttachment attachments.

(** A response whose first candidate holds an inline-binary part. *)
Definition hasImage (response : GenerateContentResponse) : Prop :=
  exists candidate others,
    candidates response = Some (candidate :: others)
    /\ existsb hasInlineData (parts (content candidate)) = true.

(** An encoded image as the operations return it. *)
Definition encodedImage (s : string) : Prop :=
  exists mime payload, s = "data:" ++ mime ++ ";base64," ++ payload.

(** The attachments the mask and the reference images of a page edit add. *)
Definition maskAttachment (maskImageBase64 : option string) : list Part :=
  match maskImageBase64 with
  | Some mask => if truthy mask then [attach mask] else []
  | None => []
  end.

Definition referenceAttachments (referenceImagesBase64 : option (list string))
  : list Part :=
  match referenceImagesBase64 with
  | Some refs => map attach refs
  | None => []
  end.

(** The attachments one character adds to a colorization. *)
Definition colorReferences (char : Character) : list Part :=
  (map attach (referenceImages char) ++ [attach (sheetImage char)])%list.

(** A story that matches the declared schema. *)
Definition wellFormedStory : string :=
  quoted "{'summary':'Test','panels':[{'panel':1,'description':'A hero stands.'}]}".

(** The assets section of the page prompt as the backend is to read it: the
    items numbered from one, the previous page first when there is one. *)
Definition numberedAssets (hasPreviousPage : bool) : string :=
  lines
    ([ "    **Assets Provided:**" ]
     ++ (if hasPreviousPage
         then [ "    1.  **Previous Page Image:** An image of the preceding page for story context.";
                "        2.  **Character Sheets:** For each character that appears.";
                "    3.  **Panel Layout with Poses:** An image showing the panel composition for the NEW page. This image ALSO CONTAINS visual pose guides for each character, clearly labeled with the character's name.";
                "    4.  **Scene Script:** A detailed, panel-by-panel description of the actions, expressions, and composition for the NEW page." ]
         else [ "    ";
                "        1.  **Character Sheets:** For each character that appears.";
                "    2.  **Panel Layout with Poses:** An image showing the panel composition for the NEW page. This image ALSO CONTAINS visual pose guides for each character, clearly labeled with the character's name.";
                "    3.  **Scene Script:** A detailed, panel-by-panel description of the actions, expressions, and composition for the NEW page." ])
     ++ [ "  "; EmptyString; "    **Character References:**" ])%list.

(** The line of the page prompt that announces the sheet of the character at
    [index] of the roster. *)
Definition characterReferenceLabel (index : nat) (char : Character) : string :=
  "- **" ++ name char ++ ":** Use the character sheet provided as " ++ dq ++ "Character Reference " ++ string_of_N (N.of_nat index + 1) ++ dq ++ ".".

(** What follows the context in the prompt of the story suggestion: the
    premise with its task, or the task alone, then the closing sentence. *)
Definition storyTask (premise : string) : string :=
  (if truthy premise
   then premiseBlock premise ++ taskWithPremise
   else taskWithoutPremise) ++ storyClosing.

(** The parsed form of [wellFormedStory]. *)
Definition wellFormedStoryValue : json :=
  JObject [ ("summary", JString "Test");
            ("panels",
              JArray [ JObject [ ("panel", JNumber {| negative := false; mantissa := 1;
                                                     exponent := 0 |});
                                 ("description", JString "A hero stands.") ] ]) ].

(** * Theorems *)

(** ** Strings *)

Lemma append_assoc (a b c : string) : (a ++ b) ++ c = a ++ (b ++ c).
Proof.
  induction a as [|x a IH]; simpl; [reflexivity|now rewrite IH].
Qed.

Lemma append_nil_r (a : string) : a ++ EmptyString = a.
Proof.
  induction a as [|x a IH]; simpl; [reflexivity|now rewrite IH].
Qed.

Lemma prefix_append (p s : string) : startsWith p (p ++ s) = true.
Proof.
  induction p as [|x p IH]; simpl; [reflexivity|].
  now rewrite Ascii.eqb_refl.
Qed.

Lemma includes_prefix (t s : string) : startsWith t s = true -> includes t s = true.
Proof.
  intros H. destruct s; cbn [includes]; now rewrite H.
Qed.

Lemma includes_append (t a b : string) : includes t (a ++ t ++ b) = true.
Proof.
  induction a as [|x a IH].
  - change (EmptyString ++ t ++ b) with (t ++ b).
    apply includes_prefix, prefix_append.
  - change (String x a ++ t ++ b) with (String x (a ++ t ++ b)).
    cbn [includes].
    destruct (startsWith t (String x (a ++ t ++ b))); [reflexivity|exact IH].
Qed.

(** ** Image codec *)

Lemma lineTerminatorAt_before_semicolon (t rest : string) :
  lineTerminatorAt (t ++ String ";" rest) = lineTerminatorAt t.
Proof.
  destruct t as [|c1 [|c2 [|c3 t3]]];
    cbn [lineTerminatorAt startsWith append]; reflexivity.
Qed.

Lemma lazyUntilSemicolon_run (t rest : string) :
  dotRun t = true -> lazyUntilSemicolon (t ++ String ";" rest) = Some t.
Proof.
  induction t as [|c t IH]; intros H.
  - reflexivity.
  - cbn [dotRun] in H.
    apply andb_prop in H as [H Hrun]. apply andb_prop in H as [Hsemi Hterm].
    apply negb_true_iff in Hsemi, Hterm.
    change (String c t ++ String ";" rest) with (String c (t ++ String ";" rest)).
    cbn [lazyUntilSemicolon]. rewrite Hsemi.
    change (String c (t ++ String ";" rest)) with (String c t ++ String ";" rest).
    rewrite lineTerminatorAt_before_semicolon, Hterm, (IH Hrun). reflexivity.
Qed.

Lemma matchMime_here (s m : string) :
  matchMimeHere s = Some m -> matchMime s = Some m.
Proof.
  intros H. destruct s; cbn [matchMime]; now rewrite H.
Qed.

Lemma matchMime_image (t rest : string) :
  dotRun t = true ->
  matchMime ("data:image/" ++ t ++ String ";" rest) = Some ("image/" ++ t).
Proof.
  intros H. apply matchMime_here. unfold matchMimeHere.
  change ("data:image/" ++ t ++ String ";" rest)
    with ("data:image/" ++ (t ++ String ";" rest)).
  rewrite prefix_append.
  change (drop 11 ("data:image/" ++ (t ++ String ";" rest))) with (t ++ String ";" rest).
  now rewrite lazyUntilSemicolon_run.
Qed.

Lemma matchMime_absent (s : string) :
  includes "data:image/" s = false -> matchMime s = None.
Proof.
  induction s as [|c s IH]; intros H.
  - reflexivity.
  - cbn [includes] in H. cbn [matchMime]. unfold matchMimeHere.
    destruct (startsWith "data:image/" (String c s)); [discriminate|].
    exact (IH H).
Qed.

Lemma split_noComma (s : string) : noComma s = true -> split "," s = [s].
Proof.
  induction s as [|c s IH]; intros H; [reflexivity|].
  cbn [noComma] in H. apply andb_prop in H as [Hc Hs]. apply negb_true_iff in Hc.
  cbn [split]. now rewrite Hc, (IH Hs).
Qed.

Lemma split_at_comma (a b : string) :
  noComma a = true -> split "," (a ++ String "," b) = a :: split "," b.
Proof.
  induction a as [|c a IH]; intros H.
  - reflexivity.
  - cbn [noComma] in H. apply andb_prop in H as [Hc Ha]. apply negb_true_iff in Hc.
    change (String c a ++ String "," b) with (String c (a ++ String "," b)).
    cbn [split]. now rewrite Hc, (IH Ha).
Qed.

Lemma noComma_append (a b : string) : noComma (a ++ b) = noComma a && noComma b.
Proof.
  induction a as [|c a IH]; simpl; [reflexivity|].
  now rewrite IH, andb_assoc.
Qed.

Lemma dataUrl_image_shape (t p : string) :
  dataUrl {| data := Some p; mimeType := "image/" ++ t |}
  = ("data:image/" ++ t ++ ";base64") ++ String "," p.
Proof.
  unfold dataUrl; cbn [data mimeType render append].
  now rewrite append_assoc.
Qed.

Lemma mimeTypeOf_truthy (image : string) : truthy (mimeTypeOf image) = true.
Proof.
  unfold mimeTypeOf, or_else.
  destruct (matchMime image) as [m|]; [|reflexivity].
  destruct (truthy m) eqn:E; [exact E|reflexivity].
Qed.

Lemma mimeTypeOf_image (t rest : string) :
  dotRun t = true ->
  mimeTypeOf ("data:image/" ++ t ++ String ";" rest) = "image/" ++ t.
Proof.
  intros H. unfold mimeTypeOf. now rewrite (matchMime_image t rest H).
Qed.

(** ** The JSON parser *)

Section ParserFacts.
Import Lexer Parser.

Lemma skipWhite_le (s : string) : String.length (skipWhite s) <= String.length s.
Proof.
  induction s as [|c s IH]; cbn [skipWhite]; [lia|].
  destruct (isWhite c); cbn [String.length]; lia.
Qed.

Lemma prepend_some (i : StringItem) r items rest :
  prepend i r = Some (items, rest) ->
  exists items', r = Some (items', rest) /\ items = i :: items'.
Proof.
  destruct r as [[items' rest']|]; cbn [prepend]; intros H; [|discriminate].
  injection H as <- <-. now exists items'.
Qed.

Lemma scanString_lt_bounded (n : nat) :
  forall s items rest, String.length s <= n ->
    scanString s = Some (items, rest) -> String.length rest < String.length s.
Proof.
  induction n as [|n IH]; intros s items rest Hn H.
  - destruct s; [discriminate|cbn [String.length] in Hn; lia].
  - destruct s as [|c s]; [discriminate|].
    cbn [scanString] in H. cbn [String.length] in Hn |- *.
    destruct (isChar 34 c).
    { injection H as _ <-. lia. }
    destruct (isChar 92 c).
    + destruct s as [|e s1]; [discriminate|].
      cbn [String.length] in Hn |- *.
      destruct (isChar 117 e).
      * destruct s1 as [|h1 [|h2 [|h3 [|h4 s2]]]]; try discriminate.
        destruct (hex4 h1 h2 h3 h4); [|discriminate].
        apply prepend_some in H as (items' & H & _).
        cbn [String.length] in Hn |- *.
        apply IH in H; cbn [String.length]; lia.
      * destruct (simpleEscape e); [|discriminate].
        apply prepend_some in H as (items' & H & _).
        apply IH in H; lia.
    + destruct (nat_of_ascii c <? 32)%nat; [discriminate|].
      apply prepend_some in H as (items' & H & _).
      apply IH in H; lia.
Qed.

Lemma scanString_lt (s : string) items rest :
  scanString s = Some (items, rest) -> String.length rest < String.length s.
Proof.
  apply (scanString_lt_bounded (String.length s)); lia.
Qed.

Lemma spanDigits_le (s : string) :
  forall acc len n len' rest,
    spanDigits acc len s = (n, len', rest) -> String.length rest <= String.length s.
Proof.
  induction s as [|c s IH]; intros acc len n len' rest H; cbn [spanDigits] in H.
  - injection H as _ _ <-. lia.
  - destruct (digitValue c).
    + apply IH in H. cbn [String.length]. lia.
    + injection H as _ _ <-. lia.
Qed.

Lemma scanInt_lt (s : string) n rest :
  scanInt s = Some (n, rest) -> String.length rest < String.length s.
Proof.
  destruct s as [|c s]; cbn [scanInt]; [discriminate|].
  destruct (digitValue c) as [d|] eqn:Hd; [|discriminate].
  destruct (d =? 0)%N.
  - intros H; injection H as _ <-. cbn [String.length]; lia.
  - cbn [spanDigits]. rewrite Hd.
    destruct (spanDigits _ _ s) as [[n' len'] r] eqn:Hs.
    intros H; injection H as _ <-.
    apply spanDigits_le in Hs. cbn [String.length]; lia.
Qed.

Lemma scanFraction_le (int : N) (s : string) n len rest :
  scanFraction int s = Some (n, len, rest) -> String.length rest <= String.length s.
Proof.
  destruct s as [|c s]; cbn [scanFraction].
  - intros H; injection H as _ _ <-. lia.
  - destruct (isChar 46 c).
    + destruct (spanDigits int 0 s) as [[n' len'] r] eqn:Hs.
      destruct (len' =? 0)%nat; [discriminate|].
      intros H; injection H as _ _ <-.
      apply spanDigits_le in Hs. cbn [String.length]; lia.
    + intros H; injection H as _ _ <-. lia.
Qed.

Lemma scanExponent_le (s : string) e rest :
  scanExponent s = Some (e, rest) -> String.length rest <= String.length s.
Proof.
  destruct s as [|c s]; cbn [scanExponent].
  - intros H; injection H as _ <-. lia.
  - destruct (isChar 101 c || isChar 69 c).
    + assert (Hd : forall sign digits, String.length digits <= String.length s ->
                (let '(n, len, r) := spanDigits 0 0 digits in
                 if (len =? 0)%nat then None else Some ((sign * Z.of_N n)%Z, r))
                = Some (e, rest) ->
                String.length rest <= String.length (String c s)).
      { intros sign digits Hlen.
        destruct (spanDigits 0 0 digits) as [[n len] r] eqn:Hs.
        destruct (len =? 0)%nat; [discriminate|].
        intros H; injection H as _ <-.
        apply spanDigits_le in Hs. cbn [String.length]; lia. }
      destruct s as [|c' r]; [apply Hd; lia|].
      destruct (isChar 43 c'); [apply Hd; cbn [String.length]; lia|].
      destruct (isChar 45 c'); apply Hd; cbn [String.length]; lia.
    + intros H; injection H as _ <-. lia.
Qed.

Lemma scanNumber_lt (s : string) d rest :
  scanNumber s = Some (d, rest) -> String.length rest < String.length s.
Proof.
  unfold scanNumber.
  assert (Hd : forall neg s1, String.length s1 <= String.length s ->
            match scanInt s1 with
            | None => None
            | Some (int, s2) =>
                match scanFraction int s2 with
                | None => None
                | Some (m, len, s3) =>
                    match scanExponent s3 with
                    | None => None
                    | Some (e, s4) =>
                        Some ({| negative := neg; mantissa := m;
                                 exponent := (e - Z.of_nat len)%Z |}, s4)
                    end
                end
            end = Some (d, rest) ->
            String.length rest < String.length s).
  { intros neg s1 Hlen.
    destruct (scanInt s1) as [[int s2]|] eqn:H1; [|discriminate].
    destruct (scanFraction int s2) as [[[m len] s3]|] eqn:H2; [|discriminate].
    destruct (scanExponent s3) as [[e s4]|] eqn:H3; [|discriminate].
    intros H; injection H as _ <-.
    apply scanInt_lt in H1. apply scanFraction_le in H2. apply scanExponent_le in H3.
    lia. }
  destruct s as [|c r]; [apply Hd; lia|].
  destruct (isChar 45 c); apply Hd; cbn [String.length]; lia.
Qed.

Lemma startsWith_drop (p s : string) :
  startsWith p s = true ->
  String.length (drop (String.length p) s) + String.length p = String.length s.
Proof.
  revert s; induction p as [|a p IH]; intros s H; cbn [String.length drop]; [lia|].
  destruct s as [|b s]; [discriminate|].
  cbn [startsWith] in H. apply andb_prop in H as [_ H].
  apply IH in H. cbn [String.length]. lia.
Qed.

Lemma parse_consumes (fuel : nat) :
  (forall s v r, parseValue fuel s = Parsed v r -> String.length r < String.length s)
  /\ (forall acc s v r,
        parseElements fuel acc s = Parsed v r -> String.length r < String.length s)
  /\ (forall acc s v r,
        parseMembers fuel acc s = Parsed v r -> String.length r < String.length s).
Proof.
  induction fuel as [|fuel (IHv & IHe & IHm)]; [repeat split; discriminate|].
  repeat split.
  - intros s v r H. cbn [parseValue] in H.
    pose proof (skipWhite_le s) as Hs.
    destruct (skipWhite s) as [|c rest]; [discriminate|].
    cbn [String.length] in Hs.
    destruct (isChar 123 c).
    { pose proof (skipWhite_le rest) as Hr.
      destruct (skipWhite rest) as [|c' r']; [discriminate|].
      cbn [String.length] in Hr.
      destruct (isChar 125 c'); [injection H as _ <-; lia|].
      apply IHm in H; lia. }
    destruct (isChar 91 c).
    { pose proof (skipWhite_le rest) as Hr.
      destruct (skipWhite rest) as [|c' r']; [discriminate|].
      cbn [String.length] in Hr.
      destruct (isChar 93 c'); [injection H as _ <-; lia|].
      apply IHe in H; lia. }
    destruct (isChar 34 c).
    { destruct (scanString rest) as [[items r']|] eqn:Hq; [|discriminate].
      injection H as _ <-. apply scanString_lt in Hq. lia. }
    destruct (startsWith "true" (String c rest)) eqn:Ht.
    { assert (Hr : drop 4 (String c rest) = r) by (injection H; intros; assumption).
      apply startsWith_drop in Ht. cbn [String.length] in Ht.
      rewrite <- Hr. lia. }
    destruct (startsWith "false" (String c rest)) eqn:Hf.
    { assert (Hr : drop 5 (String c rest) = r) by (injection H; intros; assumption).
      apply startsWith_drop in Hf. cbn [String.length] in Hf.
      rewrite <- Hr. lia. }
    destruct (startsWith "null" (String c rest)) eqn:Hn.
    { assert (Hr : drop 4 (String c rest) = r) by (injection H; intros; assumption).
      apply startsWith_drop in Hn. cbn [String.length] in Hn.
      rewrite <- Hr. lia. }
    destruct (scanNumber (String c rest)) as [[d r']|] eqn:Hd; [|discriminate].
    injection H as _ <-. apply scanNumber_lt in Hd.
    cbn [String.length] in Hd. lia.
  - intros acc s v r H. cbn [parseElements] in H.
    destruct (parseValue fuel s) as [v1 r1| |] eqn:Hv; try discriminate.
    apply IHv in Hv. pose proof (skipWhite_le r1) as Hr.
    destruct (skipWhite r1) as [|c r']; [discriminate|].
    cbn [String.length] in Hr.
    destruct (isChar 44 c); [apply IHe in H; lia|].
    destruct (isChar 93 c); [injection H as _ <-; lia|discriminate].
  - intros acc s v r H. cbn [parseMembers] in H.
    pose proof (skipWhite_le s) as Hs.
    destruct (skipWhite s) as [|q r0]; [discriminate|].
    cbn [String.length] in Hs.
    destruct (isChar 34 q); [|discriminate].
    destruct (scanString r0) as [[items r1]|] eqn:Hq; [|discriminate].
    apply scanString_lt in Hq. pose proof (skipWhite_le r1) as Hr1.
    destruct (skipWhite r1) as [|colon r2]; [discriminate|].
    cbn [String.length] in Hr1.
    destruct (isChar 58 colon); [|discriminate].
    destruct (parseValue fuel r2) as [v1 r3| |] eqn:Hv; try discriminate.
    apply IHv in Hv. pose proof (skipWhite_le r3) as Hr3.
    cbn zeta in H.
    destruct (skipWhite r3) as [|c r4]; [discriminate|].
    cbn [String.length] in Hr3.
    destruct (isChar 44 c); [apply IHm in H; lia|].
    destruct (isChar 125 c); [injection H as _ <-; lia|discriminate].
Qed.

(** The fuel that [parseText] supplies is never exhausted: a text is
    rejected only for its syntax. *)
Lemma fuel_suffices_all (fuel : nat) :
  (forall s, 2 * String.length s < fuel -> parseValue fuel s <> OutOfFuel)
  /\ (forall acc s, 2 * String.length s + 1 < fuel ->
                    parseElements fuel acc s <> OutOfFuel)
  /\ (forall acc s, 2 * String.length s + 1 < fuel ->
                    parseMembers fuel acc s <> OutOfFuel).
Proof.
  induction fuel as [|fuel (IHv & IHe & IHm)]; [repeat split; intros; lia|].
  repeat split.
  - intros s Hf. cbn [parseValue].
    pose proof (skipWhite_le s) as Hs.
    destruct (skipWhite s) as [|c rest]; [discriminate|].
    cbn [String.length] in Hs.
    destruct (isChar 123 c).
    { pose proof (skipWhite_le rest) as Hr.
      destruct (skipWhite rest) as [|c' r']; [discriminate|].
      destruct (isChar 125 c'); [discriminate|].
      apply IHm; lia. }
    destruct (isChar 91 c).
    { pose proof (skipWhite_le rest) as Hr.
      destruct (skipWhite rest) as [|c' r']; [discriminate|].
      destruct (isChar 93 c'); [discriminate|].
      apply IHe; lia. }
    destruct (isChar 34 c).
    { destruct (scanString rest) as [[items r']|]; discriminate. }
    destruct (startsWith "true" (String c rest)); [discriminate|].
    destruct (startsWith "false" (String c rest)); [discriminate|].
    destruct (startsWith "null" (String c rest)); [discriminate|].
    destruct (scanNumber (String c rest)) as [[d r']|]; discriminate.
  - intros acc s Hf. cbn [parseElements].
    destruct (parseValue fuel s) as [v1 r1| |] eqn:Hv; [|discriminate|].
    + apply (proj1 (parse_consumes fuel)) in Hv.
      pose proof (skipWhite_le r1) as Hr.
      destruct (skipWhite r1) as [|c r']; [discriminate|].
      cbn [String.length] in Hr.
      destruct (isChar 44 c); [apply IHe; lia|].
      destruct (isChar 93 c); discriminate.
    + exfalso. revert Hv. apply IHv. lia.
  - intros acc s Hf. cbn [parseMembers].
    pose proof (skipWhite_le s) as Hs.
    destruct (skipWhite s) as [|q r0]; [discriminate|].
    cbn [String.length] in Hs.
    destruct (isChar 34 q); [|discriminate].
    destruct (scanString r0) as [[items r1]|] eqn:Hq; [|discriminate].
    apply scanString_lt in Hq. pose proof (skipWhite_le r1) as Hr1.
    destruct (skipWhite r1) as [|colon r2]; [discriminate|].
    cbn [String.length] in Hr1.
    destruct (isChar 58 colon); [|discriminate].
    destruct (parseValue fuel r2) as [v1 r3| |] eqn:Hv; [|discriminate|].
    + apply (proj1 (parse_consumes fuel)) in Hv.
      pose proof (skipWhite_le r3) as Hr3. cbn zeta.
      destruct (skipWhite r3) as [|c r4]; [discriminate|].
      cbn [String.length] in Hr3.
      destruct (isChar 44 c); [apply IHm; lia|].
      destruct (isChar 125 c); discriminate.
    + exfalso. revert Hv. apply IHv. lia.
Qed.

Lemma fuel_suffices (s : string) : parseValue (fuelFor s) s <> OutOfFuel.
Proof.
  apply (proj1 (fuel_suffices_all (fuelFor s))). unfold fuelFor. lia.
Qed.

(** [JSON.parse] rejects a text exactly when the text does not start with
    a JSON value or something other than white space follows the value. *)
Lemma JSON_parse_rejects (text : option string) :
  JSON_parse text = None <->
  parseValue (fuelFor (render text)) (render text) = SyntaxError
  \/ exists v rest c tail,
       parseValue (fuelFor (render text)) (render text) = Parsed v rest
       /\ skipWhite rest = String c tail.
Proof.
  unfold JSON_parse, parseText.
  pose proof (fuel_suffices (render text)) as Hfuel.
  destruct (parseValue (fuelFor (render text)) (render text)) as [v rest| |].
  - destruct (skipWhite rest) as [|c tail] eqn:Hw; split.
    + discriminate.
    + intros [H|(v' & rest' & c & tail & H & Hr)]; [discriminate|].
      injection H as _ <-. rewrite Hw in Hr. discriminate.
    + intros _. right. now exists v, rest, c, tail.
    + reflexivity.
  - split; [now left|reflexivity].
  - congruence.
Qed.

End ParserFacts.

(** ** The claims on the image codec *)

(** C7, as stated, fails: a media type outside [image/] does not survive the
    round trip; it comes back as the default [image/png]. *)
Lemma C7_counterexample :
  inlineData (attach (dataUrl {| data := Some "QUFBQQ=="; mimeType := "text/plain" |}))
  = Some {| data := Some "QUFBQQ=="; mimeType := "image/png" |}
  /\ inlineData (attach (dataUrl {| data := Some "QUFBQQ=="; mimeType := "text/plain" |}))
     <> Some {| data := Some "QUFBQQ=="; mimeType := "text/plain" |}.
Proof.
  split; [reflexivity|discriminate].
Qed.

(** C7, amended: for every media type [image/<t>] whose [<t>] holds no
    semicolon, comma or line terminator, and every payload without a comma,
    decoding the encoded image [data:image/<t>;base64,<p>] yields back exactly
    that media type and that payload. *)
Theorem C7_image_round_trip (t p : string) :
  dotRun t = true -> noComma t = true -> noComma p = true ->
  inlineData (attach (dataUrl {| data := Some p; mimeType := "image/" ++ t |}))
  = Some {| data := Some p; mimeType := "image/" ++ t |}.
Proof.
  intros Hrun Ht Hp. unfold attach, base64ToGeminiPart. cbn [inlineData].
  assert (Hmime : mimeTypeOf (dataUrl {| data := Some p; mimeType := "image/" ++ t |})
                  = "image/" ++ t).
  { unfold dataUrl; cbn [data mimeType render].
    exact (mimeTypeOf_image t ("base64," ++ p) Hrun). }
  rewrite Hmime, dataUrl_image_shape, split_at_comma, (split_noComma p Hp).
  - reflexivity.
  - change ("data:image/" ++ t ++ ";base64") with ("data:image/" ++ (t ++ ";base64")).
    rewrite !noComma_append, Ht. reflexivity.
Qed.

Lemma C7_image_round_trip_witness :
  inlineData (attach (dataUrl {| data := Some "QUFBQQ=="; mimeType := "image/" ++ "svg+xml" |}))
  = Some {| data := Some "QUFBQQ=="; mimeType := "image/" ++ "svg+xml" |}.
Proof.
  apply (C7_image_round_trip "svg+xml" "QUFBQQ=="); reflexivity.
Defined.

(** C8, as stated, fails on both sides: a string with the prefix
    [data:text/plain;base64,] yields [image/png], not the token between
    [data:] and [;base64,]; and a string that does not start with [data:]
    can still yield a media type other than the default. *)
Lemma C8_counterexample :
  mimeTypeOf ("data:" ++ "text/plain" ++ ";base64," ++ "QUFBQQ==") = "image/png"
  /\ mimeTypeOf ("data:" ++ "text/plain" ++ ";base64," ++ "QUFBQQ==") <> "text/plain"
  /\ startsWith "data:" "see data:image/jpeg;x" = false
  /\ mimeTypeOf "see data:image/jpeg;x" = "image/jpeg".
Proof.
  repeat split; try reflexivity. discriminate.
Qed.

(** C8, amended: image decoding is total and never raises: every string
    yields a part with a non-empty media type.  It yields [image/<t>] for a
    string that starts with [data:image/<t>;] whenever [<t>] holds no
    semicolon and no line terminator, and the default [image/png] for every
    string in which [data:image/] does not occur. *)
Theorem C8_media_type_sniffing :
  (forall s,
      truthy (mimeTypeOf s) = true
      /\ exists payload,
           attach s
           = {| inlineData := Some {| data := payload; mimeType := mimeTypeOf s |};
                text := None |})
  /\ (forall t rest,
        dotRun t = true ->
        mimeTypeOf ("data:image/" ++ t ++ String ";" rest) = "image/" ++ t)
  /\ (forall s,
        includes "data:image/" s = false -> mimeTypeOf s = "image/png").
Proof.
  split; [|split].
  - intros s. split; [apply mimeTypeOf_truthy|].
    now exists (nth_error (split "," s) 1).
  - intros t rest. apply mimeTypeOf_image.
  - intros s H. unfold mimeTypeOf. now rewrite (matchMime_absent s H).
Qed.

Lemma C8_media_type_sniffing_witness :
  mimeTypeOf ("data:image/" ++ "jpeg" ++ String ";" "base64,QUFBQQ==") = "image/" ++ "jpeg"
  /\ mimeTypeOf "QUFBQQ==" = "image/png".
Proof.
  destruct C8_media_type_sniffing as (_ & Himage & Hdefault).
  split; [apply (Himage "jpeg" "base64,QUFBQQ==")|apply (Hdefault "QUFBQQ==")]; reflexivity.
Defined.

(** ** The claims on the structured operations *)

Lemma basic_validation (v : json) :
  truthyValue (Some v) && truthyValue (getProperty "summary" v)
  && isArray (getProperty "panels" v) = true
  <-> basicStory v.
Proof.
  split.
  - intros H. apply andb_prop in H as [H Harray]. apply andb_prop in H as [_ Hsummary].
    destruct v as [| | | | |fields]; try discriminate.
    cbn [getProperty] in Hsummary, Harray.
    destruct (getMember "summary" fields) as [s|] eqn:Hs; [|discriminate].
    destruct (getMember "panels" fields) as [[| | | |l|]|] eqn:Hp; try discriminate.
    now exists fields, s, l.
  - intros (fields & s & l & -> & Hs & Ht & Hp).
    cbn [getProperty]. rewrite Hs, Hp, Ht. reflexivity.
Qed.

Lemma readStorySuggestion_ok (response : GenerateContentResponse) (v : json) :
  readStorySuggestion response = Ok v
  <-> JSON_parse (response_text response) = Some v /\ basicStory v.
Proof.
  unfold readStorySuggestion.
  destruct (JSON_parse (response_text response)) as [suggestion|].
  - destruct (truthyValue (Some suggestion)
              && truthyValue (getProperty "summary" suggestion)
              && isArray (getProperty "panels" suggestion)) eqn:Hcheck; split.
    + intros H; injection H as <-. split; [reflexivity|now apply basic_validation].
    + intros [H _]; now injection H as <-.
    + discriminate.
    + intros [H Hbasic]; injection H as <-.
      apply basic_validation in Hbasic. congruence.
  - split; [discriminate|intros [H _]; discriminate].
Qed.

Lemma readStorySuggestion_throw (response : GenerateContentResponse) :
  (forall v, readStorySuggestion response <> Ok v) ->
  readStorySuggestion response = Throw invalidStory.
Proof.
  unfold readStorySuggestion. intros H.
  destruct (JSON_parse (response_text response)) as [suggestion|]; [|reflexivity].
  destruct (truthyValue (Some suggestion)
            && truthyValue (getProperty "summary" suggestion)
            && isArray (getProperty "panels" suggestion)); [|reflexivity].
  now destruct (H suggestion).
Qed.

(** C1, as stated, fails: the backend may answer with an analysis that reports
    no discrepancy and carries a correction prompt all the same, and the
    operation returns it as it is. *)
Lemma C1_counterexample :
  analyzeAndSuggestCorrections (answering (payloadOf inconsistentAnalysis))
    layoutImage canvas "Kaito draws his sword." [kaito]
  = Ok inconsistentResult
  /\ ~ analysisInvariant inconsistentResult.
Proof.
  split; [vm_compute; reflexivity|].
  intros [H _]. specialize (H eq_refl). discriminate.
Qed.

(** C1, amended: every value returned by [analyzeAndSuggestCorrections] is
    exactly the value that [JSON.parse] yields for the text of the backend's
    response, and every response text that parses is returned that way; the
    contract between [has_discrepancies] and [correction_prompt] is asked of
    the backend in the prompt and is not enforced, so it holds of the result
    exactly when it holds of the payload. *)
Theorem C1_analysis_returns_the_payload
    (generateContent : GenerateContentParameters -> Result GenerateContentResponse)
    (panelLayoutImage generated scene : string) (characters : list Character) :
  (forall result,
      analyzeAndSuggestCorrections generateContent panelLayoutImage generated scene
        characters = Ok result
      <-> exists response,
            generateContent (analysisRequest panelLayoutImage generated scene characters)
            = Ok response
            /\ JSON_parse (response_text response) = Some result)
  /\ (forall response payload,
        generateContent (analysisRequest panelLayoutImage generated scene characters)
        = Ok response ->
        JSON_parse (response_text response) = Some payload ->
        (analysisInvariant payload
         <-> forall result,
               analyzeAndSuggestCorrections generateContent panelLayoutImage generated
                 scene characters = Ok result ->
               analysisInvariant result)).
Proof.
  unfold analyzeAndSuggestCorrections, bind, readAnalysis. split.
  - intros result. destruct (generateContent _) as [response|message]; split.
    + destruct (JSON_parse (response_text response)) as [v|] eqn:Hparse; [|discriminate].
      intros H; injection H as <-. now exists response.
    + intros (response' & H & Hparse). injection H as <-. now rewrite Hparse.
    + discriminate.
    + intros (response' & H & _). discriminate.
  - intros response payload Hbackend Hparse. rewrite Hbackend, Hparse. split.
    + intros Hpayload result H. now injection H as <-.
    + intros H. now apply H.
Qed.

Lemma C1_analysis_returns_the_payload_witness :
  analysisInvariant
    (JObject [ ("analysis", JString "The page matches the plan.");
               ("has_discrepancies", JBool false);
               ("correction_prompt", JString EmptyString) ])
  <-> forall result,
        analyzeAndSuggestCorrections (answering (payloadOf consistentAnalysis))
          layoutImage canvas "Kaito draws his sword." [kaito] = Ok result ->
        analysisInvariant result.
Proof.
  destruct (C1_analysis_returns_the_payload (answering (payloadOf consistentAnalysis))
              layoutImage canvas "Kaito draws his sword." [kaito]) as [_ H].
  apply (H (payloadOf consistentAnalysis)); vm_compute; reflexivity.
Defined.

(** C6, as stated, fails: a payload that parses and does not match the
    declared shape (its panels are numbers) passes the basic validation of the
    story suggestion and is returned. *)
Lemma C6_counterexample :
  JSON_parse (Some malformedPanels) = Some malformedStory
  /\ conforms storySuggestionSchema malformedStory = false
  /\ generateDetailedStorySuggestion (answering (payloadOf malformedPanels))
       "Kaito meets Anya." "A floating city." [kaito; anya] None
     = Ok malformedStory.
Proof.
  repeat split; vm_compute; reflexivity.
Qed.

(** C6, amended: [generateDetailedStorySuggestion] fails with its
    invalid-structure failure, and returns no object, whenever the payload
    parses to a value that is not an object with a truthy [summary] and an
    array [panels], as the literal payload with a summary only; the shape of
    the panels and the type of the summary are not checked.  Both structured
    operations fail with their invalid-structure failure when the payload does
    not parse. *)
Theorem C6_structured_payload_rejection
    (generateContent : GenerateContentParameters -> Result GenerateContentResponse)
    (response : GenerateContentResponse)
    (premise worldview : string) (characters : list Character)
    (previousPages : option (list Page))
    (panelLayoutImage generated scene : string) :
  (forall request, generateContent request = Ok response) ->
  (JSON_parse (response_text response) = None ->
   generateDetailedStorySuggestion generateContent premise worldview characters
     previousPages = Throw invalidStory
   /\ analyzeAndSuggestCorrections generateContent panelLayoutImage generated scene
        characters = Throw "The AI returned an invalid analysis structure.")
  /\ (forall v,
        JSON_parse (response_text response) = Some v ->
        (generateDetailedStorySuggestion generateContent premise worldview characters
           previousPages = Ok v <-> basicStory v)
        /\ (~ basicStory v ->
            generateDetailedStorySuggestion generateContent premise worldview characters
              previousPages = Throw invalidStory))
  /\ (response_text response = Some summaryOnly ->
      generateDetailedStorySuggestion generateContent premise worldview characters
        previousPages = Throw invalidStory).
Proof.
  intros Hbackend.
  unfold generateDetailedStorySuggestion, analyzeAndSuggestCorrections, bind.
  rewrite !Hbackend. split; [|split].
  - intros Hparse. unfold readStorySuggestion, readAnalysis. now rewrite Hparse.
  - intros v Hparse. split.
    + rewrite readStorySuggestion_ok. rewrite Hparse.
      split; [now intros [_ H]|now split].
    + intros Hnot. apply readStorySuggestion_throw. intros v' Hok.
      apply readStorySuggestion_ok in Hok as [Hv Hbasic].
      rewrite Hparse in Hv. injection Hv as <-. now apply Hnot.
  - intros Htext. unfold readStorySuggestion. rewrite Htext. reflexivity.
Qed.

Lemma C6_structured_payload_rejection_witness :
  generateDetailedStorySuggestion (answering (payloadOf summaryOnly))
    "Kaito meets Anya." "A floating city." [kaito; anya] None
  = Throw invalidStory.
Proof.
  apply (C6_structured_payload_rejection (answering (payloadOf summaryOnly))
           (payloadOf summaryOnly) "Kaito meets Anya." "A floating city." [kaito; anya]
           None layoutImage canvas "Kaito draws his sword.");
    reflexivity.
Defined.

(** ** The claims on the attachments *)

Lemma characterParts_map (characters : list Character) :
  (if Nat.ltb 0 (length characters)
   then map (fun char => attach (sheetImage char)) characters
   else [])
  = map (fun char => attach (sheetImage char)) characters.
Proof.
  now destruct characters.
Qed.

(** C2, as stated, fails: with a previous page, two characters and a canvas,
    the canvas is the first attachment and the previous page the second; the
    claimed order, previous page first and canvas last, is not the one sent. *)
Lemma C2_counterexample :
  tl (layoutParts "Kaito meets Anya." [kaito; anya] "A4" (Some previousSketch)
        (Some canvas))
  = [ attach canvas; attach (proposalImage previousSketch);
      attach (sheetImage kaito); attach (sheetImage anya) ]
  /\ tl (layoutParts "Kaito meets Anya." [kaito; anya] "A4" (Some previousSketch)
           (Some canvas))
     <> [ attach (proposalImage previousSketch);
          attach (sheetImage kaito); attach (sheetImage anya); attach canvas ].
Proof.
  split; [vm_compute; reflexivity|vm_compute; discriminate].
Qed.

(** C2, amended: for every call of [generateLayoutProposal] in which a
    previous page with a proposal image and a current canvas image are
    supplied, the attachments after the text instruction are ordered:
    current-canvas image first, then the previous-page image, then the
    per-character sheet images in roster order. *)
Theorem C2_layout_attachment_order
    (generateContent : GenerateContentParameters -> Result GenerateContentResponse)
    (story : string) (characters : list Character) (aspectRatioKey : string)
    (previousPage : ProposalPage) (currentCanvasImage : string) :
  truthy (proposalImage previousPage) = true ->
  truthy currentCanvasImage = true ->
  generateLayoutProposal generateContent story characters aspectRatioKey
    (Some previousPage) (Some currentCanvasImage)
  = bind
      (generateContent
         (imageRequest
            (textPart (layoutPrompt story (Nat.ltb 0 (length characters))
                         (selectConfig aspectRatioKey) (Some previousPage))
             :: attach currentCanvasImage
             :: attach (proposalImage previousPage)
             :: map (fun char => attach (sheetImage char)) characters)))
      readLayoutProposal.
Proof.
  intros Hprevious Hcanvas. unfold generateLayoutProposal, layoutParts.
  rewrite Hprevious, Hcanvas, characterParts_map. reflexivity.
Qed.

Lemma C2_layout_attachment_order_witness :
  generateLayoutProposal (answering (candidateOf twoOfEach)) "Kaito meets Anya."
    [kaito; anya] "A4" (Some previousSketch) (Some canvas)
  = bind
      (answering (candidateOf twoOfEach)
         (imageRequest
            (textPart (layoutPrompt "Kaito meets Anya." (Nat.ltb 0 (length [kaito; anya]))
                         (selectConfig "A4") (Some previousSketch))
             :: attach canvas
             :: attach (proposalImage previousSketch)
             :: map (fun char => attach (sheetImage char)) [kaito; anya])))
      readLayoutProposal.
Proof.
  apply (C2_layout_attachment_order (answering (candidateOf twoOfEach))
           "Kaito meets Anya." [kaito; anya] "A4" previousSketch canvas);
    reflexivity.
Defined.

(** C9: in [generateMangaPage], when a previous page with a generated image is
    supplied, the attachments after the text instruction are exactly the
    previous-page image, the character sheet images in roster order, and the
    panel-layout image; when the previous page is absent, only that leading
    element is gone and the rest is unchanged. *)
Theorem C9_manga_page_attachment_order
    (generateContent : GenerateContentParameters -> Result GenerateContentResponse)
    (characters : list Character) (panelLayoutImageBase64 scene : string)
    (colorMode : ColorMode) (previousPage : Page) (previousImage : string)
    (generateEmptyBubbles : bool) :
  generatedImage previousPage = Some previousImage ->
  truthy previousImage = true ->
  generateMangaPage generateContent characters panelLayoutImageBase64 scene colorMode
    (Some previousPage) generateEmptyBubbles
  = bind
      (generateContent
         (imageRequest
            (textPart (mangaPagePrompt characters scene colorMode (Some previousPage)
                         generateEmptyBubbles)
             :: attach previousImage
             :: (map (fun char => attach (sheetImage char)) characters
                 ++ [attach panelLayoutImageBase64])%list)))
      readMangaPage
  /\ generateMangaPage generateContent characters panelLayoutImageBase64 scene colorMode
       None generateEmptyBubbles
     = bind
         (generateContent
            (imageRequest
               (textPart (mangaPagePrompt characters scene colorMode None
                            generateEmptyBubbles)
                :: (map (fun char => attach (sheetImage char)) characters
                    ++ [attach panelLayoutImageBase64])%list)))
         readMangaPage.
Proof.
  intros Himage Htruthy. unfold generateMangaPage, mangaPageParts. split.
  - unfold pageWithImage at 1. rewrite Himage, Htruthy. reflexivity.
  - reflexivity.
Qed.

Lemma C9_manga_page_attachment_order_witness :
  generateMangaPage (answering (candidateOf twoOfEach)) [kaito; anya] layoutImage
    "Kaito draws his sword." monochrome (Some finishedPage) false
  = bind
      (answering (candidateOf twoOfEach)
         (imageRequest
            (textPart (mangaPagePrompt [kaito; anya] "Kaito draws his sword." monochrome
                         (Some finishedPage) false)
             :: attach "data:image/jpeg;base64,UEFHRTE="
             :: (map (fun char => attach (sheetImage char)) [kaito; anya]
                 ++ [attach layoutImage])%list)))
      readMangaPage.
Proof.
  apply (C9_manga_page_attachment_order (answering (candidateOf twoOfEach))
           [kaito; anya] layoutImage "Kaito draws his sword." monochrome finishedPage
           "data:image/jpeg;base64,UEFHRTE=" false);
    reflexivity.
Defined.

(** ** The claims on the responses *)

Lemma find_first {A : Type} (f : A -> bool) (before after : list A) (x : A) :
  existsb f before = false -> f x = true -> find f (before ++ x :: after) = Some x.
Proof.
  intros Hbefore Hx. induction before as [|y before IH]; cbn [app find].
  - now rewrite Hx.
  - cbn [existsb] in Hbefore. apply orb_false_elim in Hbefore as [Hy Hbefore].
    rewrite Hy. exact (IH Hbefore).
Qed.

Lemma find_append {A : Type} (f : A -> bool) (l1 l2 : list A) :
  find f (l1 ++ l2) = match find f l1 with
                      | Some x => Some x
                      | None => find f l2
                      end.
Proof.
  induction l1 as [|y l1 IH]; cbn [app find]; [reflexivity|].
  now destruct (f y).
Qed.

Lemma collectParts_append (ps qs : list Part) (result : GeneratedContent) :
  collectParts (ps ++ qs) result = collectParts qs (collectParts ps result).
Proof.
  revert result. induction ps as [|part ps IH]; intros result; cbn [app collectParts].
  - reflexivity.
  - destruct (inlineData part); [apply IH|].
    destruct (truthy_opt (text part)); apply IH.
Qed.

Lemma collectParts_keeps_image (ps : list Part) (result : GeneratedContent) :
  existsb hasInlineData ps = false -> image (collectParts ps result) = image result.
Proof.
  revert result. induction ps as [|part ps IH]; intros result H; cbn [collectParts].
  - reflexivity.
  - cbn [existsb] in H. apply orb_false_elim in H as [Hpart H].
    unfold hasInlineData in Hpart.
    destruct (inlineData part); [discriminate|].
    destruct (truthy_opt (text part)); now rewrite (IH _ H).
Qed.

Lemma collectParts_caption (ps : list Part) (result : GeneratedContent) :
  caption (collectParts ps result)
  = match find isCaption (rev ps) with
    | Some part => text part
    | None => caption result
    end.
Proof.
  revert result. induction ps as [|part ps IH]; intros result.
  - reflexivity.
  - cbn [collectParts rev]. rewrite find_append. cbn [find]. unfold isCaption at 2.
    destruct (inlineData part); cbn [isSome negb andb].
    + rewrite IH. now destruct (find isCaption (rev ps)).
    + destruct (truthy_opt (text part)); rewrite IH;
        now destruct (find isCaption (rev ps)).
Qed.

Lemma readMangaPage_last (response : GenerateContentResponse)
    (before after : list Part) (part : Part) (blob : Blob) :
  noCandidates response = false ->
  firstParts response = (before ++ part :: after)%list ->
  inlineData part = Some blob ->
  existsb hasInlineData after = false ->
  readMangaPage response
  = Ok {| image := Some (dataUrl blob);
          caption := lastCaption (before ++ part :: after)%list |}.
Proof.
  intros Hcandidates Hparts Hblob Hafter. unfold readMangaPage.
  rewrite Hcandidates, Hparts. cbn [negb].
  set (start := {| image := None; caption := None |}).
  assert (Himage : image (collectParts (before ++ part :: after)%list start)
                   = Some (dataUrl blob)).
  { rewrite collectParts_append. cbn [collectParts]. rewrite Hblob.
    now rewrite collectParts_keeps_image. }
  assert (Hcaption : caption (collectParts (before ++ part :: after)%list start)
                     = lastCaption (before ++ part :: after)%list).
  { rewrite collectParts_caption. reflexivity. }
  destruct (collectParts (before ++ part :: after)%list start) as [i c].
  cbn [image caption] in Himage, Hcaption |- *. subst i c. reflexivity.
Qed.

Lemma firstParts_of (response : GenerateContentResponse) (candidate : Candidate)
    (others : list Candidate) :
  candidates response = Some (candidate :: others) ->
  noCandidates response = false /\ firstParts response = parts (content candidate).
Proof.
  intros H. unfold noCandidates, firstParts. now rewrite H.
Qed.

Lemma first_inline_part (before after : list Part) (part : Part) (blob : Blob) :
  inlineData part = Some blob ->
  existsb hasInlineData before = false ->
  inlineDataOf (findInlineData (before ++ part :: after)%list) = Some blob.
Proof.
  intros Hblob Hbefore. unfold findInlineData.
  change (find (fun p => isSome (inlineData p)) (before ++ part :: after))
    with (find hasInlineData (before ++ part :: after)).
  rewrite (find_first hasInlineData before after part Hbefore).
  - exact Hblob.
  - unfold hasInlineData. now rewrite Hblob.
Qed.

(** C3, as stated, fails for [generateMangaPage]: of two inline-binary parts
    and two text parts it uses the last image and the last text, not the
    first ones. *)
Lemma C3_counterexample :
  generateMangaPage (answering (candidateOf twoOfEach)) [kaito] layoutImage
    "Kaito draws his sword." monochrome None false
  = Ok {| image := Some (dataUrl jpegB); caption := Some "second" |}
  /\ inlineDataOf (findInlineData twoOfEach) = Some pngA
  /\ textOf (findText twoOfEach) = Some "first"
  /\ dataUrl jpegB <> dataUrl pngA.
Proof.
  repeat split; try (vm_compute; reflexivity). vm_compute; discriminate.
Qed.

(** C3, amended: when the first candidate holds several inline-binary parts,
    [generateLayoutProposal], [generateCharacterSheet],
    [generateCharacterFromReference], [editCharacterSheet],
    [colorizeMangaPage] and [editMangaPage] form their result from the first
    of them, while [generateMangaPage] forms its image from the last of them
    and takes its text from the last part that carries text and no inline
    data. *)
Theorem C3_image_part_selection
    (generateContent : GenerateContentParameters -> Result GenerateContentResponse)
    (response : GenerateContentResponse) (candidate : Candidate)
    (others : list Candidate) (before after : list Part) (part : Part) (blob : Blob)
    (story aspectRatioKey characterName characterConcept editPrompt scene prompt : string)
    (characters : list Character) (proposalPage : option ProposalPage)
    (previousPage : option Page) (sheet page panelLayout : string)
    (canvasImage mask : option string) (references : list string)
    (editReferences : option (list string)) (colorMode : ColorMode) (bubbles : bool) :
  (forall request, generateContent request = Ok response) ->
  candidates response = Some (candidate :: others) ->
  parts (content candidate) = (before ++ part :: after)%list ->
  inlineData part = Some blob ->
  (existsb hasInlineData before = false ->
   generateLayoutProposal generateContent story characters aspectRatioKey proposalPage
     canvasImage = Ok (dataUrl blob)
   /\ generateCharacterSheet generateContent references characterName colorMode
      = Ok (dataUrl blob)
   /\ generateCharacterFromReference generateContent references characterName
        characterConcept colorMode = Ok (dataUrl blob)
   /\ editCharacterSheet generateContent sheet characterName editPrompt
      = Ok (dataUrl blob)
   /\ colorizeMangaPage generateContent page characters = Ok (dataUrl blob)
   /\ editMangaPage generateContent page prompt mask editReferences
      = Ok (dataUrl blob))
  /\ (existsb hasInlineData after = false ->
      generateMangaPage generateContent characters panelLayout scene colorMode
        previousPage bubbles
      = Ok {| image := Some (dataUrl blob);
              caption := lastCaption (before ++ part :: after)%list |}).
Proof.
  intros Hbackend Hcandidates Hparts Hblob.
  destruct (firstParts_of response candidate others Hcandidates) as [Hsome Hfirst].
  rewrite Hparts in Hfirst. split.
  - intros Hbefore.
    pose proof (first_inline_part before after part blob Hblob Hbefore) as Hfound.
    unfold generateLayoutProposal, generateCharacterSheet, generateCharacterFromReference,
      editCharacterSheet, colorizeMangaPage, editMangaPage, bind.
    rewrite !Hbackend.
    unfold readLayoutProposal, readCharacterSheet, readEditedCharacterSheet,
      readColorizedPage, readEditedPage.
    rewrite Hsome, Hfirst, Hfound. repeat split; reflexivity.
  - intros Hafter. unfold generateMangaPage, bind. rewrite Hbackend.
    now apply readMangaPage_last.
Qed.

Lemma C3_image_part_selection_witness :
  colorizeMangaPage (answering (candidateOf twoOfEach)) canvas [kaito]
  = Ok (dataUrl pngA)
  /\ generateMangaPage (answering (candidateOf twoOfEach)) [kaito] layoutImage
       "Kaito draws his sword." monochrome None false
     = Ok {| image := Some (dataUrl jpegB);
             caption := lastCaption ([ {| inlineData := Some pngA; text := None |};
                                     textPart "first" ]
                                   ++ {| inlineData := Some jpegB; text := None |}
                                   :: [ textPart "second" ])%list |}.
Proof.
  split.
  - apply (C3_image_part_selection (answering (candidateOf twoOfEach))
             (candidateOf twoOfEach) {| content := {| parts := twoOfEach |} |} []
             [] (tl twoOfEach) {| inlineData := Some pngA; text := None |} pngA
             "Kaito meets Anya." "A4" "Kaito" "A swordsman." "Add a scar."
             "Kaito draws his sword." "Fix the sword." [kaito] None None
             (sheetImage kaito) canvas layoutImage None None [] None monochrome false);
      reflexivity.
  - apply (C3_image_part_selection (answering (candidateOf twoOfEach))
             (candidateOf twoOfEach) {| content := {| parts := twoOfEach |} |} []
             [ {| inlineData := Some pngA; text := None |}; textPart "first" ]
             [ textPart "second" ] {| inlineData := Some jpegB; text := None |} jpegB
             "Kaito meets Anya." "A4" "Kaito" "A swordsman." "Add a scar."
             "Kaito draws his sword." "Fix the sword." [kaito] None None
             (sheetImage kaito) canvas layoutImage None None [] None monochrome false);
      reflexivity.
Defined.

(** C4, at the failing input: a response with one candidate whose only part is
    the text of a refusal.  [editCharacterSheet] and [colorizeMangaPage] fail
    with a fixed message in which that text does not occur. *)
Theorem C4_refusal_text_is_dropped :
  editCharacterSheet (answering (candidateOf [textPart refusal])) (sheetImage kaito)
    "Kaito" "Add a scar."
  = Throw "The AI did not return an updated image for the character sheet."
  /\ includes refusal "The AI did not return an updated image for the character sheet."
     = false
  /\ colorizeMangaPage (answering (candidateOf [textPart refusal])) canvas [kaito]
     = Throw "The AI did not return a colored image."
  /\ includes refusal "The AI did not return a colored image." = false.
Proof.
  repeat split; vm_compute; reflexivity.
Qed.

Lemma no_inline_part (ps : list Part) :
  existsb hasInlineData ps = false -> inlineDataOf (findInlineData ps) = None.
Proof.
  intros H. unfold findInlineData.
  destruct (find (fun part => isSome (inlineData part)) ps) as [part|] eqn:Hfind;
    [|reflexivity].
  apply find_some in Hfind as [Hin Hpart].
  assert (Hex : existsb hasInlineData ps = true)
    by (apply existsb_exists; now exists part).
  congruence.
Qed.


Lemma collectParts_no_image (ps : list Part) :
  existsb hasInlineData ps = false ->
  collectParts ps {| image := None; caption := None |}
  = {| image := None; caption := lastCaption ps |}.
Proof.
  intros H.
  pose proof (collectParts_keeps_image ps {| image := None; caption := None |} H)
    as Himage.
  pose proof (collectParts_caption ps {| image := None; caption := None |}) as Hcaption.
  destruct (collectParts ps {| image := None; caption := None |}) as [i c].
  cbn [image caption] in Himage, Hcaption. subst i c. reflexivity.
Qed.


(** ** The claims on the previous pages and on the aspect ratio *)

(** What the loop over the previous pages computes: the labels of the pages
    that have an image and a script, each with its position in the whole
    list, and the images of the same pages, in the same order. *)
Lemma previousPagesLoop_spec (pages : list Page) :
  forall (index : nat) (contextPrompt : string) (previousPagesContent : list Part),
    previousPagesLoop index pages contextPrompt previousPagesContent
    = (contextPrompt
       ++ concatAll (map (fun ip => previousPageLabel (fst ip) (snd ip))
                       (filter (fun ip => included (snd ip)) (indexed index pages))),
       (previousPagesContent
        ++ map (fun page => attach (imageOf page)) (filter included pages))%list).
Proof.
  induction pages as [|page pages IH]; intros index contextPrompt previousPagesContent.
  - cbn. now rewrite append_nil_r, app_nil_r.
  - cbn [previousPagesLoop indexed filter snd].
    destruct (generatedImage page) as [img|] eqn:Himage.
    + assert (Hincluded : included page = truthy img && truthy (sceneDescription page))
        by (unfold included; now rewrite Himage).
      rewrite Hincluded.
      destruct (truthy img && truthy (sceneDescription page)); [|now rewrite IH].
      rewrite IH. cbn [map fst snd concatAll fold_right].
      replace (imageOf page) with img by (unfold imageOf; now rewrite Himage).
      now rewrite append_assoc, <- app_assoc.
    + assert (Hincluded : included page = false)
        by (unfold included; now rewrite Himage).
      rewrite Hincluded. now rewrite IH.
Qed.

(** C5, at the failing input: of two previous pages the first has no image.
    The request holds the image of the second page as its only attachment, in
    first place, while the prompt labels that page as previous page 2 and
    announces its image as image 2; no text announces an image 1. *)
Theorem C5_label_numbers_count_skipped_pages :
  exists prompt,
    parts (contents (storyRequest "Anya joins the fight." "A floating city."
                       [kaito; anya] (Some [pageWithoutImage; finishedPage])))
    = [ textPart prompt; attach "data:image/jpeg;base64,UEFHRTE=" ]
    /\ includes "[Previous Page 2]" prompt = true
    /\ includes "[Image 2 is attached]" prompt = true
    /\ includes "[Image 1 is attached]" prompt = false.
Proof.
  eexists. split; [reflexivity|].
  repeat split; vm_compute; reflexivity.
Qed.

(** X2, the part of C5 that holds: in the request of the story suggestion
    the previous pages that lack their image or their script appear neither in
    the text nor among the attachments.  Between a text that does not depend
    on the previous pages and another one, the prompt holds the labels of the
    pages that have both, each numbered with its position in the whole list;
    the attachments are the images of the same pages, in the same order. *)
Theorem story_previous_pages_are_filtered
    (premise worldview : string) (characters : list Character) :
  exists before after,
    forall first others,
      parts (contents (storyRequest premise worldview characters
                         (Some (first :: others))))
      = textPart
          (before
           ++ concatAll (map (fun ip => previousPageLabel (fst ip) (snd ip))
                           (filter (fun ip => included (snd ip))
                              (indexed 0 (first :: others))))
           ++ after)
        :: map (fun page => attach (imageOf page)) (filter included (first :: others)).
Proof.
  exists (storyOpening worldview characters ++ previousPagesHeading),
         ((if truthy premise
           then premiseBlock premise ++ taskWithPremise
           else taskWithoutPremise) ++ storyClosing).
  intros first others. unfold storyRequest, storyContext.
  rewrite previousPagesLoop_spec. cbn [app].
  destruct (truthy premise); cbn [parts contents]; now rewrite !append_assoc.
Qed.

Lemma ownProperty_other (key : string) :
  ~ In key presetKeys -> ownProperty key ASPECT_RATIO_CONFIG = None.
Proof.
  intros H. cbn [ownProperty ASPECT_RATIO_CONFIG].
  repeat match goal with
         | |- context [String.eqb ?k key] =>
             destruct (String.eqb_spec k key) as [E|_];
             [exfalso; apply H; rewrite <- E; cbn; tauto|]
         end.
  reflexivity.
Qed.

(** C10, at the failing input: the key [constructor] is none of the four
    presets, yet the profile used is not the A4 profile: the lookup finds the
    member every object inherits, and the prompt sent is built from its
    missing ratio, width and height. *)
Theorem C10_inherited_key_is_not_A4 :
  ~ In "constructor" presetKeys
  /\ selectConfig "constructor" = Inherited "constructor"
  /\ selectConfig "constructor" <> Own A4
  /\ exists prompt,
       layoutParts "Kaito meets Anya." [] "constructor" None None = [ textPart prompt ]
       /\ includes "an exact aspect ratio of undefined." prompt = true
       /\ includes "a canvas of undefinedpx width and undefinedpx height." prompt = true
       /\ includes "210:297" prompt = false.
Proof.
  split; [|split; [reflexivity|split; [discriminate|]]].
  - cbn. intros [H|[H|[H|[H|[]]]]]; discriminate.
  - eexists. split; [reflexivity|].
    repeat split; vm_compute; reflexivity.
Qed.

(** X3, the part of C10 that holds: each preset key maps to its fixed triple, and
    every other key that is not the name of a member inherited from
    [Object.prototype] gets the A4 profile. *)
Theorem aspect_ratio_profiles :
  selectConfig "A4" = Own {| w := 595; h := 842; value := "210:297" |}
  /\ selectConfig "Portrait (3:4)" = Own {| w := 600; h := 800; value := "3:4" |}
  /\ selectConfig "Square (1:1)" = Own {| w := 800; h := 800; value := "1:1" |}
  /\ selectConfig "Widescreen (16:9)" = Own {| w := 1280; h := 720; value := "16:9" |}
  /\ forall key,
       ~ In key presetKeys -> ~ In key objectPrototypeKeys ->
       selectConfig key = Own {| w := 595; h := 842; value := "210:297" |}.
Proof.
  repeat split; try reflexivity.
  intros key Hpreset Hproto. unfold selectConfig, lookupConfig.
  rewrite (ownProperty_other key Hpreset).
  destruct (existsb (String.eqb key) objectPrototypeKeys) eqn:Hex; [|reflexivity].
  apply existsb_exists in Hex as (k & Hin & Hk).
  apply String.eqb_eq in Hk. subst k. contradiction.
Qed.

Lemma aspect_ratio_profiles_witness :
  selectConfig "Letter" = Own {| w := 595; h := 842; value := "210:297" |}.
Proof.
  destruct aspect_ratio_profiles as (_ & _ & _ & _ & H).
  apply (H "Letter"); cbn; intros H'; repeat destruct H' as [H'|H']; try discriminate;
    exact H'.
Defined.


(** * Further properties *)

(** ** Occurrences in a text *)

Lemma startsWith_split (p s : string) :
  startsWith p s = true -> exists b, s = p ++ b.
Proof.
  revert s. induction p as [|x p IH]; intros s H.
  - now exists s.
  - destruct s as [|y s]; [discriminate|].
    cbn [startsWith] in H. apply andb_prop in H as [Hx Hp].
    apply Ascii.eqb_eq in Hx. subst y.
    destruct (IH s Hp) as [b ->]. now exists b.
Qed.

Lemma includes_split (t s : string) :
  includes t s = true -> exists a b, s = a ++ t ++ b.
Proof.
  induction s as [|c s IH]; cbn [includes].
  - destruct (startsWith t EmptyString) eqn:Hp; [|discriminate].
    intros _. apply startsWith_split in Hp as [b Hb]. now exists EmptyString, b.
  - destruct (startsWith t (String c s)) eqn:Hp.
    + intros _. apply startsWith_split in Hp as [b Hb]. now exists EmptyString, b.
    + intros H. destruct (IH H) as (a & b & ->). now exists (String c a), b.
Qed.

Lemma includes_within (t x a b : string) :
  includes t x = true -> includes t (a ++ x ++ b) = true.
Proof.
  intros H. apply includes_split in H as (a' & b' & ->).
  replace (a ++ (a' ++ t ++ b') ++ b) with ((a ++ a') ++ t ++ (b' ++ b))
    by now rewrite !append_assoc.
  apply includes_append.
Qed.

Lemma includes_self (t : string) : includes t t = true.
Proof.
  rewrite <- (append_nil_r t) at 2.
  change (t ++ EmptyString) with (EmptyString ++ t ++ EmptyString).
  apply includes_append.
Qed.

Lemma includes_suffix (t a : string) : includes t (a ++ t) = true.
Proof.
  rewrite <- (append_nil_r t) at 2. apply includes_append.
Qed.

Lemma concat_in (sep x : string) (l : list string) :
  In x l -> exists a b, String.concat sep l = a ++ x ++ b.
Proof.
  induction l as [|y l IH]; intros H; [contradiction|].
  destruct H as [<-|H].
  - destruct l as [|z l]; cbn [String.concat].
    + exists EmptyString, EmptyString. now rewrite append_nil_r.
    + now exists EmptyString, (sep ++ String.concat sep (z :: l)).
  - destruct l as [|z l]; [contradiction|].
    destruct (IH H) as (a & b & Hab).
    change (String.concat sep (y :: z :: l))
      with (y ++ sep ++ String.concat sep (z :: l)).
    rewrite Hab. exists (y ++ sep ++ a), b. now rewrite !append_assoc.
Qed.

Lemma includes_line (t sep : string) (l : list string) :
  existsb (includes t) l = true -> includes t (String.concat sep l) = true.
Proof.
  intros H. apply existsb_exists in H as (x & Hin & Hx).
  destruct (concat_in sep x l Hin) as (a & b & ->).
  now apply includes_within.
Qed.

(** ** Image codec *)

Lemma lazyUntilSemicolon_some (s : string) :
  forall t, lazyUntilSemicolon s = Some t ->
            dotRun t = true /\ exists rest, s = t ++ String ";" rest.
Proof.
  induction s as [|c s IH]; intros t H; [discriminate|].
  cbn [lazyUntilSemicolon] in H.
  destruct (Ascii.eqb c ";") eqn:Hsemi.
  - injection H as <-. apply Ascii.eqb_eq in Hsemi. subst c.
    split; [reflexivity|now exists s].
  - destruct (lineTerminatorAt (String c s)) eqn:Hterm; [discriminate|].
    destruct (lazyUntilSemicolon s) as [t'|]; [|discriminate].
    injection H as <-. destruct (IH t' eq_refl) as (Hrun & rest & ->).
    split; [|now exists rest].
    cbn [dotRun]. rewrite Hsemi, Hrun.
    change (String c (t' ++ String ";" rest)) with (String c t' ++ String ";" rest)
      in Hterm.
    rewrite lineTerminatorAt_before_semicolon in Hterm. now rewrite Hterm.
Qed.

Lemma matchMime_some (s m : string) :
  matchMime s = Some m ->
  exists a t rest,
    m = "image/" ++ t /\ dotRun t = true
    /\ s = a ++ "data:image/" ++ t ++ String ";" rest.
Proof.
  induction s as [|c s IH]; cbn [matchMime].
  - unfold matchMimeHere. cbn. discriminate.
  - destruct (matchMimeHere (String c s)) as [m'|] eqn:Hhere.
    + intros H; injection H as <-. unfold matchMimeHere in Hhere.
      destruct (startsWith "data:image/" (String c s)) eqn:Hp; [|discriminate].
      apply startsWith_split in Hp as [b Hb]. rewrite Hb in Hhere |- *.
      change (drop 11 ("data:image/" ++ b)) with b in Hhere.
      destruct (lazyUntilSemicolon b) as [t|] eqn:Hlazy; [|discriminate].
      injection Hhere as <-.
      apply lazyUntilSemicolon_some in Hlazy as (Hrun & rest & ->).
      now exists EmptyString, t, rest.
    + intros H. destruct (IH H) as (a & t & rest & Hm & Hrun & ->).
      now exists (String c a), t, rest.
Qed.

Lemma mimeTypeOf_shape (s : string) :
  exists t,
    mimeTypeOf s = "image/" ++ t
    /\ dotRun t = true
    /\ (t = "png" \/ includes ("data:image/" ++ t ++ ";") s = true).
Proof.
  unfold mimeTypeOf, or_else.
  destruct (matchMime s) as [m|] eqn:Hmatch.
  - apply matchMime_some in Hmatch as (a & t & rest & -> & Hrun & ->).
    exists t. split; [reflexivity|]. split; [exact Hrun|right].
    assert (E : a ++ "data:image/" ++ t ++ String ";" rest
                = a ++ ("data:image/" ++ t ++ ";") ++ rest).
    { f_equal. cbn [append]. now rewrite append_assoc. }
    rewrite E. apply includes_append.
  - exists "png". repeat split. now left.
Qed.

(** X4: whatever the image string, the media type attached to it is of the
    form [image/<t>] with no semicolon and no line terminator in [<t>]: it is
    the default [image/png], or [data:image/<t>;] occurs in the string. *)
Theorem media_type_is_an_image_type (s : string) :
  exists t,
    mimeTypeOf s = "image/" ++ t
    /\ dotRun t = true
    /\ (t = "png" \/ includes ("data:image/" ++ t ++ ";") s = true).
Proof.
  exact (mimeTypeOf_shape s).
Qed.

(** X5: [base64ToGeminiPart] takes as payload the text between the first and
    the second comma of the image string (up to the end when there is one
    comma only), and leaves the payload undefined when the string holds no
    comma. *)
Theorem payload_lies_between_the_commas (mime : string) :
  (forall s,
      noComma s = true ->
      base64ToGeminiPart s mime
      = {| inlineData := Some {| data := None; mimeType := mime |}; text := None |})
  /\ (forall header payload,
        noComma header = true -> noComma payload = true ->
        base64ToGeminiPart (header ++ String "," payload) mime
        = {| inlineData := Some {| data := Some payload; mimeType := mime |};
             text := None |})
  /\ (forall header payload rest,
        noComma header = true -> noComma payload = true ->
        base64ToGeminiPart (header ++ String "," (payload ++ String "," rest)) mime
        = {| inlineData := Some {| data := Some payload; mimeType := mime |};
             text := None |}).
Proof.
  unfold base64ToGeminiPart. split; [|split].
  - intros s Hs. now rewrite (split_noComma s Hs).
  - intros header payload Hh Hp.
    now rewrite (split_at_comma header payload Hh), (split_noComma payload Hp).
  - intros header payload rest Hh Hp.
    now rewrite (split_at_comma header _ Hh), (split_at_comma payload rest Hp).
Qed.

Lemma payload_lies_between_the_commas_witness :
  base64ToGeminiPart "QUFBQQ==" "image/png"
  = {| inlineData := Some {| data := None; mimeType := "image/png" |}; text := None |}
  /\ base64ToGeminiPart ("data:image/png;base64" ++ String "," "QUFBQQ==") "image/png"
     = {| inlineData := Some {| data := Some "QUFBQQ=="; mimeType := "image/png" |};
          text := None |}
  /\ base64ToGeminiPart
       ("data:image/png;charset=utf-8" ++ String "," ("base64" ++ String "," "QUFBQQ=="))
       "image/png"
     = {| inlineData := Some {| data := Some "base64"; mimeType := "image/png" |};
          text := None |}.
Proof.
  destruct (payload_lies_between_the_commas "image/png") as (Hnone & Hone & Htwo).
  split; [|split].
  - apply (Hnone "QUFBQQ=="); reflexivity.
  - apply (Hone "data:image/png;base64" "QUFBQQ=="); reflexivity.
  - apply (Htwo "data:image/png;charset=utf-8" "base64" "QUFBQQ=="); reflexivity.
Defined.

(** ** Reading a response *)

Lemma hasImage_iff (response : GenerateContentResponse) :
  hasImage response
  <-> noCandidates response = false
      /\ existsb hasInlineData (firstParts response) = true.
Proof.
  unfold hasImage, noCandidates, firstParts. split.
  - intros (candidate & others & -> & H). now split.
  - intros [Hsome H]. destruct (candidates response) as [[|candidate others]|];
      try discriminate.
    now exists candidate, others.
Qed.

Lemma some_inline_part (ps : list Part) :
  existsb hasInlineData ps = true ->
  exists blob, inlineDataOf (findInlineData ps) = Some blob.
Proof.
  intros H. apply existsb_exists in H as (x & Hin & Hx).
  unfold findInlineData.
  destruct (find (fun part => isSome (inlineData part)) ps) as [y|] eqn:Hfind.
  - apply find_some in Hfind as [_ Hy]. cbn [inlineDataOf].
    destruct (inlineData y) as [blob|]; [now exists blob|discriminate].
  - apply (find_none _ _ Hfind) in Hin. unfold hasInlineData in Hx. congruence.
Qed.

Lemma dataUrl_encoded (blob : Blob) : encodedImage (dataUrl blob).
Proof.
  now exists (mimeType blob), (render (data blob)).
Qed.

Lemma collectParts_image_stays (ps : list Part) :
  forall result,
    (exists blob, image result = Some (dataUrl blob)) ->
    exists blob, image (collectParts ps result) = Some (dataUrl blob).
Proof.
  induction ps as [|part ps IH]; intros result H; cbn [collectParts]; [exact H|].
  destruct (inlineData part) as [blob|].
  - apply IH. now exists blob.
  - destruct (truthy_opt (text part)); apply IH; exact H.
Qed.

Lemma collectParts_image_some (ps : list Part) :
  forall result,
    existsb hasInlineData ps = true ->
    exists blob, image (collectParts ps result) = Some (dataUrl blob).
Proof.
  induction ps as [|part ps IH]; intros result H; [discriminate|].
  cbn [collectParts]. cbn [existsb] in H. unfold hasInlineData at 1 in H.
  destruct (inlineData part) as [blob|].
  - apply collectParts_image_stays. now exists blob.
  - cbn [isSome orb] in H. destruct (truthy_opt (text part)); now apply IH.
Qed.

Ltac read_found H :=
  let blob := fresh "blob" in
  let E := fresh "E" in
  apply some_inline_part in H as [blob E]; rewrite E.

Ltac read_ok_iff read :=
  intros response; unfold read; rewrite hasImage_iff;
  destruct (noCandidates response);
  [ split; [intros [img H]; discriminate|intros [H _]; discriminate]
  | destruct (existsb hasInlineData (firstParts response)) eqn:Hparts;
    [ read_found Hparts; split; [now split|intros _; eauto]
    | rewrite (no_inline_part _ Hparts); split;
      [ intros [img H]; repeat match type of H with
                                | context [match ?x with _ => _ end] => destruct x
                                end; discriminate
      | intros [_ H]; discriminate ] ] ].

Lemma readLayoutProposal_ok :
  forall response, (exists img, readLayoutProposal response = Ok img) <-> hasImage response.
Proof. read_ok_iff readLayoutProposal. Qed.

Lemma readCharacterSheet_ok :
  forall response, (exists img, readCharacterSheet response = Ok img) <-> hasImage response.
Proof. read_ok_iff readCharacterSheet. Qed.

Lemma readEditedCharacterSheet_ok :
  forall response,
    (exists img, readEditedCharacterSheet response = Ok img) <-> hasImage response.
Proof. read_ok_iff readEditedCharacterSheet. Qed.

Lemma readColorizedPage_ok :
  forall response, (exists img, readColorizedPage response = Ok img) <-> hasImage response.
Proof. read_ok_iff readColorizedPage. Qed.

Lemma readEditedPage_ok :
  forall response, (exists img, readEditedPage response = Ok img) <-> hasImage response.
Proof. read_ok_iff readEditedPage. Qed.

Ltac read_encoded read :=
  intros response img; unfold read;
  destruct (noCandidates response); [discriminate|];
  destruct (inlineDataOf (findInlineData (firstParts response))) as [blob|];
  [ intros H; injection H as <-; apply dataUrl_encoded
  | intros H; repeat match type of H with
                     | context [match ?x with _ => _ end] => destruct x
                     end; discriminate ].

Lemma readLayoutProposal_encoded :
  forall response img, readLayoutProposal response = Ok img -> encodedImage img.
Proof. read_encoded readLayoutProposal. Qed.

Lemma readCharacterSheet_encoded :
  forall response img, readCharacterSheet response = Ok img -> encodedImage img.
Proof. read_encoded readCharacterSheet. Qed.

Lemma readEditedCharacterSheet_encoded :
  forall response img, readEditedCharacterSheet response = Ok img -> encodedImage img.
Proof. read_encoded readEditedCharacterSheet. Qed.

Lemma readColorizedPage_encoded :
  forall response img, readColorizedPage response = Ok img -> encodedImage img.
Proof. read_encoded readColorizedPage. Qed.

Lemma readEditedPage_encoded :
  forall response img, readEditedPage response = Ok img -> encodedImage img.
Proof. read_encoded readEditedPage. Qed.

(** X6: an image-producing operation other than [generateMangaPage] returns
    an image exactly when the first candidate of the response holds an
    inline-binary part, and every image it returns is an encoded image
    [data:<media type>;base64,<payload>]; text alone never yields a result. *)
Theorem image_is_returned_exactly_when_present
    (generateContent : GenerateContentParameters -> Result GenerateContentResponse)
    (response : GenerateContentResponse)
    (story aspectRatioKey characterName characterConcept editPrompt prompt : string)
    (characters : list Character) (proposalPage : option ProposalPage)
    (sheet page : string) (canvasImage mask : option string) (references : list string)
    (editReferences : option (list string)) (colorMode : ColorMode) :
  (forall request, generateContent request = Ok response) ->
  ((exists img, generateLayoutProposal generateContent story characters aspectRatioKey
                  proposalPage canvasImage = Ok img)
   <-> hasImage response)
  /\ ((exists img, generateCharacterSheet generateContent references characterName
                     colorMode = Ok img)
      <-> hasImage response)
  /\ ((exists img, generateCharacterFromReference generateContent references
                     characterName characterConcept colorMode = Ok img)
      <-> hasImage response)
  /\ ((exists img, editCharacterSheet generateContent sheet characterName editPrompt
                   = Ok img)
      <-> hasImage response)
  /\ ((exists img, colorizeMangaPage generateContent page characters = Ok img)
      <-> hasImage response)
  /\ ((exists img, editMangaPage generateContent page prompt mask editReferences
                   = Ok img)
      <-> hasImage response)
  /\ (forall img,
        generateLayoutProposal generateContent story characters aspectRatioKey
          proposalPage canvasImage = Ok img
        \/ generateCharacterSheet generateContent references characterName colorMode
           = Ok img
        \/ generateCharacterFromReference generateContent references characterName
             characterConcept colorMode = Ok img
        \/ editCharacterSheet generateContent sheet characterName editPrompt = Ok img
        \/ colorizeMangaPage generateContent page characters = Ok img
        \/ editMangaPage generateContent page prompt mask editReferences = Ok img ->
        encodedImage img).
Proof.
  intros Hbackend.
  unfold generateLayoutProposal, generateCharacterSheet, generateCharacterFromReference,
    editCharacterSheet, colorizeMangaPage, editMangaPage, bind.
  rewrite !Hbackend.
  repeat split;
    try (apply readLayoutProposal_ok || apply readCharacterSheet_ok
         || apply readEditedCharacterSheet_ok || apply readColorizedPage_ok
         || apply readEditedPage_ok).
  intros img [H|[H|[H|[H|[H|H]]]]];
    revert H;
    (apply readLayoutProposal_encoded || apply readCharacterSheet_encoded
     || apply readEditedCharacterSheet_encoded || apply readColorizedPage_encoded
     || apply readEditedPage_encoded).
Qed.

Lemma image_is_returned_exactly_when_present_witness :
  exists img,
    editCharacterSheet (answering (candidateOf twoOfEach)) (sheetImage kaito) "Kaito"
      "Add a scar." = Ok img.
Proof.
  apply (image_is_returned_exactly_when_present (answering (candidateOf twoOfEach))
           (candidateOf twoOfEach) "Kaito meets Anya." "A4" "Kaito" "A swordsman."
           "Add a scar." "Fix the sword." [kaito] None (sheetImage kaito) canvas None None
           [] None monochrome).
  - reflexivity.
  - exists {| content := {| parts := twoOfEach |} |}, []. split; reflexivity.
Defined.

(** X7: [generateMangaPage] returns a result exactly when the first candidate
    holds an inline-binary part; the result then always has an image, which is
    an encoded image, and its text is that of the last part carrying text and
    no inline data, absent when there is no such part. *)
Theorem manga_page_result_has_an_image
    (generateContent : GenerateContentParameters -> Result GenerateContentResponse)
    (response : GenerateContentResponse)
    (characters : list Character) (panelLayout scene : string) (colorMode : ColorMode)
    (previousPage : option Page) (bubbles : bool) :
  (forall request, generateContent request = Ok response) ->
  ((exists result, generateMangaPage generateContent characters panelLayout scene
                     colorMode previousPage bubbles = Ok result)
   <-> hasImage response)
  /\ (forall result,
        generateMangaPage generateContent characters panelLayout scene colorMode
          previousPage bubbles = Ok result ->
        (exists img, image result = Some img /\ encodedImage img)
        /\ caption result = lastCaption (firstParts response)).
Proof.
  intros Hbackend. unfold generateMangaPage, bind. rewrite Hbackend.
  unfold readMangaPage. rewrite hasImage_iff.
  destruct (noCandidates response).
  { split; [split; [intros [r H]; discriminate|intros [H _]; discriminate]|].
    intros result H; discriminate. }
  set (start := {| image := None; caption := None |}).
  destruct (existsb hasInlineData (firstParts response)) eqn:Hparts.
  - destruct (collectParts_image_some (firstParts response) start Hparts) as [blob Himage].
    pose proof (collectParts_caption (firstParts response) start) as Hcaption.
    rewrite Himage. cbn [truthy_opt negb].
    assert (Htruthy : truthy (dataUrl blob) = true) by reflexivity.
    rewrite Htruthy. cbn [negb]. split.
    + split; [now split|intros _; eauto].
    + intros result H. injection H as <-. split.
      * exists (dataUrl blob). split; [exact Himage|apply dataUrl_encoded].
      * exact Hcaption.
  - unfold start. rewrite (collectParts_no_image _ Hparts). cbn [image truthy_opt negb].
    split; [split; [intros [r H]; discriminate|intros [_ H]; discriminate]|].
    intros result H; discriminate.
Qed.

Lemma manga_page_result_has_an_image_witness :
  exists result,
    generateMangaPage (answering (candidateOf twoOfEach)) [kaito] layoutImage
      "Kaito draws his sword." monochrome None false = Ok result.
Proof.
  apply (manga_page_result_has_an_image (answering (candidateOf twoOfEach))
           (candidateOf twoOfEach) [kaito] layoutImage "Kaito draws his sword."
           monochrome None false).
  - reflexivity.
  - exists {| content := {| parts := twoOfEach |} |}, []. split; reflexivity.
Defined.

Ltac not_the_empty_failure read :=
  intros response candidate others Hsome;
  destruct (firstParts_of response candidate others Hsome) as [Hnone _];
  unfold read; rewrite Hnone;
  repeat match goal with
         | |- context [match ?x with _ => _ end] => destruct x
         end;
  unfold noImageResponse; cbn [append]; discriminate.

Lemma readLayoutProposal_not_empty :
  forall response candidate others,
    candidates response = Some (candidate :: others) ->
    readLayoutProposal response
    <> Throw "The AI did not return a valid response for the layout proposal.".
Proof. not_the_empty_failure readLayoutProposal. Qed.

Lemma readCharacterSheet_not_empty :
  forall response candidate others,
    candidates response = Some (candidate :: others) ->
    readCharacterSheet response
    <> Throw "The AI did not return a valid response for the character sheet. It may have been blocked.".
Proof. not_the_empty_failure readCharacterSheet. Qed.

Lemma readEditedCharacterSheet_not_empty :
  forall response candidate others,
    candidates response = Some (candidate :: others) ->
    readEditedCharacterSheet response
    <> Throw "The AI did not return a valid response for the character sheet edit.".
Proof. not_the_empty_failure readEditedCharacterSheet. Qed.

Lemma readColorizedPage_not_empty :
  forall response candidate others,
    candidates response = Some (candidate :: others) ->
    readColorizedPage response
    <> Throw "The AI did not return a valid response for colorization.".
Proof. not_the_empty_failure readColorizedPage. Qed.

Lemma readEditedPage_not_empty :
  forall response candidate others,
    candidates response = Some (candidate :: others) ->
    readEditedPage response
    <> Throw "The AI did not return a valid response for the image edit.".
Proof. not_the_empty_failure readEditedPage. Qed.

Lemma readMangaPage_not_empty :
  forall response candidate others,
    candidates response = Some (candidate :: others) ->
    forall detail,
      readMangaPage response
      <> Throw ("The AI did not return a valid response. It may have been blocked. "
                ++ detail).
Proof.
  intros response candidate others Hsome detail.
  destruct (firstParts_of response candidate others Hsome) as [Hnone _].
  unfold readMangaPage. rewrite Hnone.
  destruct (negb _); cbn [append]; discriminate.
Qed.

(** X8: a response without candidates, absent or empty, makes every
    image-producing operation fail with its own no-valid-response message,
    whatever else the response holds; [generateMangaPage] appends the text of
    the response to it.  A response with at least one candidate never causes
    that failure, so it cannot be mistaken for a missing image. *)
Theorem empty_response_is_a_failure_of_its_own
    (generateContent : GenerateContentParameters -> Result GenerateContentResponse)
    (response : GenerateContentResponse)
    (story aspectRatioKey characterName characterConcept editPrompt prompt scene : string)
    (characters : list Character) (proposalPage : option ProposalPage)
    (previousPage : option Page) (sheet page panelLayout : string)
    (canvasImage mask : option string) (references : list string)
    (editReferences : option (list string)) (colorMode : ColorMode) (bubbles : bool) :
  (forall request, generateContent request = Ok response) ->
  (candidates response = None \/ candidates response = Some [] ->
   generateLayoutProposal generateContent story characters aspectRatioKey proposalPage
     canvasImage
   = Throw "The AI did not return a valid response for the layout proposal."
   /\ generateCharacterSheet generateContent references characterName colorMode
      = Throw "The AI did not return a valid response for the character sheet. It may have been blocked."
   /\ generateCharacterFromReference generateContent references characterName
        characterConcept colorMode
      = Throw "The AI did not return a valid response for the character sheet. It may have been blocked."
   /\ editCharacterSheet generateContent sheet characterName editPrompt
      = Throw "The AI did not return a valid response for the character sheet edit."
   /\ generateMangaPage generateContent characters panelLayout scene colorMode
        previousPage bubbles
      = Throw ("The AI did not return a valid response. It may have been blocked. "
               ++ or_else (response_text response) EmptyString)
   /\ colorizeMangaPage generateContent page characters
      = Throw "The AI did not return a valid response for colorization."
   /\ editMangaPage generateContent page prompt mask editReferences
      = Throw "The AI did not return a valid response for the image edit.")
  /\ (forall candidate others,
        candidates response = Some (candidate :: others) ->
        generateLayoutProposal generateContent story characters aspectRatioKey
          proposalPage canvasImage
        <> Throw "The AI did not return a valid response for the layout proposal."
        /\ generateCharacterSheet generateContent references characterName colorMode
           <> Throw "The AI did not return a valid response for the character sheet. It may have been blocked."
        /\ generateCharacterFromReference generateContent references characterName
             characterConcept colorMode
           <> Throw "The AI did not return a valid response for the character sheet. It may have been blocked."
        /\ editCharacterSheet generateContent sheet characterName editPrompt
           <> Throw "The AI did not return a valid response for the character sheet edit."
        /\ (forall detail,
              generateMangaPage generateContent characters panelLayout scene colorMode
                previousPage bubbles
              <> Throw ("The AI did not return a valid response. It may have been blocked. "
                        ++ detail))
        /\ colorizeMangaPage generateContent page characters
           <> Throw "The AI did not return a valid response for colorization."
        /\ editMangaPage generateContent page prompt mask editReferences
           <> Throw "The AI did not return a valid response for the image edit.").
Proof.
  intros Hbackend.
  unfold generateLayoutProposal, generateCharacterSheet, generateCharacterFromReference,
    editCharacterSheet, generateMangaPage, colorizeMangaPage, editMangaPage, bind.
  rewrite !Hbackend. split.
  - intros Hempty.
    assert (Hnone : noCandidates response = true)
      by (unfold noCandidates; destruct Hempty as [-> | ->]; reflexivity).
    unfold readLayoutProposal, readCharacterSheet, readEditedCharacterSheet,
      readMangaPage, readColorizedPage, readEditedPage.
    rewrite Hnone. repeat split.
  - intros candidate others Hsome. repeat split.
    + now apply (readLayoutProposal_not_empty response candidate others).
    + now apply (readCharacterSheet_not_empty response candidate others).
    + now apply (readCharacterSheet_not_empty response candidate others).
    + now apply (readEditedCharacterSheet_not_empty response candidate others).
    + now apply (readMangaPage_not_empty response candidate others).
    + now apply (readColorizedPage_not_empty response candidate others).
    + now apply (readEditedPage_not_empty response candidate others).
Qed.

Lemma empty_response_is_a_failure_of_its_own_witness :
  colorizeMangaPage
    (answering {| candidates := Some []; response_text := Some refusal |}) canvas [kaito]
  = Throw "The AI did not return a valid response for colorization."
  /\ generateMangaPage
       (answering {| candidates := None; response_text := Some refusal |}) [kaito]
       layoutImage "Kaito draws his sword." monochrome None false
     = Throw ("The AI did not return a valid response. It may have been blocked. "
              ++ or_else (Some refusal) EmptyString).
Proof.
  split.
  - apply (empty_response_is_a_failure_of_its_own
             (answering {| candidates := Some []; response_text := Some refusal |})
             {| candidates := Some []; response_text := Some refusal |}
             "Kaito meets Anya." "A4" "Kaito" "A swordsman." "Add a scar."
             "Fix the sword." "Kaito draws his sword." [kaito] None None
             (sheetImage kaito) canvas layoutImage None None [] None monochrome false);
      [reflexivity|now right].
  - apply (empty_response_is_a_failure_of_its_own
             (answering {| candidates := None; response_text := Some refusal |})
             {| candidates := None; response_text := Some refusal |}
             "Kaito meets Anya." "A4" "Kaito" "A swordsman." "Add a scar."
             "Fix the sword." "Kaito draws his sword." [kaito] None None
             (sheetImage kaito) canvas layoutImage None None [] None monochrome false);
      [reflexivity|now left].
Defined.

(** ** Attachments of the remaining operations *)

Lemma fold_attach (refs : list string) :
  forall acc : list Part,
    fold_left (fun parts refImg => (parts ++ [attach refImg])%list) refs acc
    = (acc ++ map attach refs)%list.
Proof.
  induction refs as [|r refs IH]; intros acc; cbn [fold_left map].
  - now rewrite app_nil_r.
  - rewrite IH, <- app_assoc. reflexivity.
Qed.

Lemma fold_pushCharacterParts (characters : list Character) :
  forall acc : list Part,
    fold_left pushCharacterParts characters acc
    = (acc ++ flat_map colorReferences characters)%list.
Proof.
  induction characters as [|char characters IH]; intros acc; cbn [fold_left flat_map].
  - now rewrite app_nil_r.
  - rewrite IH. unfold pushCharacterParts, colorReferences.
    rewrite fold_attach, <- !app_assoc. reflexivity.
Qed.

Lemma editMangaPageParts_order (originalImageBase64 prompt : string)
    (maskImageBase64 : option string) (referenceImagesBase64 : option (list string)) :
  editMangaPageParts originalImageBase64 prompt maskImageBase64 referenceImagesBase64
  = textPart (editMangaPagePrompt prompt maskImageBase64 referenceImagesBase64)
    :: attach originalImageBase64
    :: (maskAttachment maskImageBase64 ++ referenceAttachments referenceImagesBase64)%list.
Proof.
  unfold editMangaPageParts, maskAttachment, referenceAttachments.
  destruct referenceImagesBase64 as [refs|]; [rewrite fold_attach|];
    destruct maskImageBase64 as [mask|]; try destruct (truthy mask);
    cbn [app]; rewrite ?app_nil_r; reflexivity.
Qed.

Lemma colorizeParts_order (monochromePageBase64 : string) (characters : list Character) :
  colorizeParts monochromePageBase64 characters
  = textPart (colorizePrompt characters)
    :: attach monochromePageBase64
    :: flat_map colorReferences characters.
Proof.
  unfold colorizeParts. now rewrite fold_pushCharacterParts.
Qed.

(** X9: in [editMangaPage] the attachments after the text instruction are
    the original image, then the mask when a non-empty one is given, then the
    reference images in the order given; an absent or empty mask and absent
    references add nothing. *)
Theorem edit_page_attachment_order
    (generateContent : GenerateContentParameters -> Result GenerateContentResponse)
    (originalImageBase64 prompt : string) (maskImageBase64 : option string)
    (referenceImagesBase64 : option (list string)) :
  editMangaPage generateContent originalImageBase64 prompt maskImageBase64
    referenceImagesBase64
  = bind
      (generateContent
         (imageRequest
            (textPart (editMangaPagePrompt prompt maskImageBase64 referenceImagesBase64)
             :: attach originalImageBase64
             :: (maskAttachment maskImageBase64
                 ++ referenceAttachments referenceImagesBase64)%list)))
      readEditedPage.
Proof.
  unfold editMangaPage. now rewrite editMangaPageParts_order.
Qed.

(** X10: in [colorizeMangaPage] the attachments after the text instruction
    are the monochrome page, then, character by character in roster order,
    the reference images of the character in their order followed by the
    sheet of the character. *)
Theorem colorize_attachment_order
    (generateContent : GenerateContentParameters -> Result GenerateContentResponse)
    (monochromePageBase64 : string) (characters : list Character) :
  colorizeMangaPage generateContent monochromePageBase64 characters
  = bind
      (generateContent
         (imageRequest
            (textPart (colorizePrompt characters)
             :: attach monochromePageBase64
             :: flat_map colorReferences characters)))
      readColorizedPage.
Proof.
  unfold colorizeMangaPage. now rewrite colorizeParts_order.
Qed.

(** ** The shape of every request *)

Lemma attach_isImage (s : string) : isImageAttachment (attach s).
Proof.
  destruct (mimeTypeOf_shape s) as (t & Hmime & _).
  split; [reflexivity|].
  exists (nth_error (split "," s) 1), t.
  unfold attach, base64ToGeminiPart. cbn [inlineData]. now rewrite Hmime.
Qed.

Lemma Forall_attach {A : Type} (f : A -> string) (l : list A) :
  Forall isImageAttachment (map (fun x => attach (f x)) l).
Proof.
  induction l as [|x l IH]; cbn [map]; constructor; [apply attach_isImage|exact IH].
Qed.

Lemma Forall_colorReferences (characters : list Character) :
  Forall isImageAttachment (flat_map colorReferences characters).
Proof.
  induction characters as [|char characters IH]; cbn [flat_map]; [constructor|].
  apply Forall_app. split; [|exact IH].
  unfold colorReferences. apply Forall_app. split.
  - exact (Forall_attach (fun s => s) (referenceImages char)).
  - constructor; [apply attach_isImage|constructor].
Qed.

Lemma shape_intro (prompt : string) (attachments : list Part) :
  Forall isImageAttachment attachments ->
  instructionThenImages (textPart prompt :: attachments).
Proof.
  intros H. now exists prompt, attachments.
Qed.

(** X11: the parts of every request are one text instruction followed by
    image attachments only: each further part carries inline data whose media
    type is of the form [image/<t>], and no text. *)
Theorem every_request_is_an_instruction_then_images
    (premise worldview story aspectRatioKey characterName characterConcept editPrompt
       scene prompt : string)
    (characters : list Character) (previousPages : option (list Page))
    (proposalPage : option ProposalPage) (previousPage : option Page)
    (sheet page panelLayout generated : string) (canvasImage mask : option string)
    (references : list string) (editReferences : option (list string))
    (colorMode : ColorMode) (bubbles : bool) :
  instructionThenImages
    (parts (contents (storyRequest premise worldview characters previousPages)))
  /\ instructionThenImages
       (layoutParts story characters aspectRatioKey proposalPage canvasImage)
  /\ instructionThenImages (characterSheetParts references characterName colorMode)
  /\ instructionThenImages
       (characterFromReferenceParts references characterName characterConcept colorMode)
  /\ instructionThenImages (editCharacterSheetParts sheet characterName editPrompt)
  /\ instructionThenImages
       (mangaPageParts characters panelLayout scene colorMode previousPage bubbles)
  /\ instructionThenImages (colorizeParts page characters)
  /\ instructionThenImages (editMangaPageParts page prompt mask editReferences)
  /\ instructionThenImages
       (parts (contents (analysisRequest panelLayout generated scene characters))).
Proof.
  repeat split.
  - unfold storyRequest, storyContext.
    destruct previousPages as [[|first others]|].
    + apply shape_intro. constructor.
    + rewrite previousPagesLoop_spec. apply shape_intro. cbn [app].
      exact (Forall_attach imageOf (filter included (first :: others))).
    + apply shape_intro. constructor.
  - unfold layoutParts. rewrite characterParts_map.
    destruct canvasImage as [img|]; [destruct (truthy img)|];
      (destruct proposalPage as [p|]; [destruct (truthy (proposalImage p))|]);
      cbn [app]; apply shape_intro;
      repeat (constructor; [apply attach_isImage|]);
      exact (Forall_attach sheetImage characters).
  - apply shape_intro. exact (Forall_attach (fun s => s) references).
  - apply shape_intro. exact (Forall_attach (fun s => s) references).
  - apply shape_intro. constructor; [apply attach_isImage|constructor].
  - unfold mangaPageParts.
    assert (Htail : Forall isImageAttachment
                      (map (fun char => attach (sheetImage char)) characters
                       ++ [attach panelLayout])).
    { apply Forall_app. split; [exact (Forall_attach sheetImage characters)|].
      constructor; [apply attach_isImage|constructor]. }
    destruct (pageWithImage previousPage) as [[p img]|]; cbn [app]; apply shape_intro;
      [constructor; [apply attach_isImage|]|]; exact Htail.
  - rewrite colorizeParts_order. apply shape_intro.
    constructor; [apply attach_isImage|apply Forall_colorReferences].
  - rewrite editMangaPageParts_order. apply shape_intro.
    constructor; [apply attach_isImage|].
    apply Forall_app. split.
    + unfold maskAttachment. destruct mask as [m|]; [destruct (truthy m)|];
        repeat constructor. apply attach_isImage.
    + unfold referenceAttachments. destruct editReferences as [refs|]; [|constructor].
      exact (Forall_attach (fun s => s) refs).
  - apply shape_intro. repeat (constructor; [apply attach_isImage|]). constructor.
Qed.

(** ** What the prompts hold *)

Lemma includes_skip (t a r : string) :
  includes t r = true -> includes t (a ++ r) = true.
Proof.
  intros H. rewrite <- (append_nil_r r). now apply includes_within.
Qed.

Lemma includes_before (t x b : string) :
  includes t x = true -> includes t (x ++ b) = true.
Proof.
  intros H. change (x ++ b) with (EmptyString ++ x ++ b). now apply includes_within.
Qed.

(** Finds an occurrence through appends and through the lines of a
    template. *)
Ltac occurs :=
  match goal with
  | |- includes ?t ?t = true => apply includes_self
  | |- includes ?t (lines ?l) = true =>
      apply (includes_line t nl l); cbn [existsb]; some_line
  | |- includes ?t (join ?sep ?l) = true =>
      apply (includes_line t sep l); cbn [existsb]; some_line
  | |- includes ?t (?a ++ ?r) = true =>
      first [ apply includes_skip; occurs | apply includes_before; occurs ]
  end
with some_line :=
  match goal with
  | |- (?a || ?b)%bool = true =>
      first [ apply orb_true_iff; left; solve [occurs]
            | apply orb_true_iff; right; some_line ]
  end.

(** X12: the texts the caller supplies reach the backend verbatim: the story
    in the layout prompt, the scene script in the page prompt and in the
    analysis prompt, the script of the previous page in the page prompt when
    that page has an image, the character name in the three character-sheet
    prompts together with the concept or the edit request, and the edit
    instruction in the page-edit prompt, with or without a mask. *)
Theorem caller_texts_occur_in_the_prompts
    (story scene characterName characterConcept editPrompt prompt : string)
    (characters : list Character) (hasCharacters bubbles : bool) (config : Member)
    (proposalPage : option ProposalPage) (colorMode : ColorMode)
    (mask : option string) (references : option (list string)) :
  includes story (layoutPrompt story hasCharacters config proposalPage) = true
  /\ (forall previousPage,
        includes scene (mangaPagePrompt characters scene colorMode previousPage bubbles)
        = true)
  /\ (forall page img,
        generatedImage page = Some img -> truthy img = true ->
        includes (sceneDescription page)
          (mangaPagePrompt characters scene colorMode (Some page) bubbles) = true)
  /\ includes scene (analysisPrompt scene characters) = true
  /\ includes characterName (characterSheetPrompt characterName colorMode) = true
  /\ includes characterName
       (characterFromReferencePrompt characterName characterConcept colorMode) = true
  /\ includes characterConcept
       (characterFromReferencePrompt characterName characterConcept colorMode) = true
  /\ includes characterName (editCharacterSheetPrompt characterName editPrompt) = true
  /\ includes editPrompt (editCharacterSheetPrompt characterName editPrompt) = true
  /\ includes prompt (editMangaPagePrompt prompt mask references) = true.
Proof.
  repeat split.
  - unfold layoutPrompt. cbv zeta. occurs.
  - intros previousPage. unfold mangaPagePrompt. cbv zeta. occurs.
  - intros page img Himage Htruthy. unfold mangaPagePrompt. cbv zeta.
    unfold pageWithImage. rewrite Himage, Htruthy. cbv beta iota.
    unfold continuationInstruction. occurs.
  - unfold analysisPrompt. cbv zeta. occurs.
  - unfold characterSheetPrompt. occurs.
  - unfold characterFromReferencePrompt. occurs.
  - unfold characterFromReferencePrompt. occurs.
  - unfold editCharacterSheetPrompt. occurs.
  - unfold editCharacterSheetPrompt. occurs.
  - unfold editMangaPagePrompt. cbv zeta.
    destruct (truthy_opt mask); destruct references as [[|first others]|]; occurs.
Qed.

Lemma caller_texts_occur_in_the_prompts_witness :
  includes (sceneDescription finishedPage)
    (mangaPagePrompt [kaito] "Kaito draws his sword." monochrome (Some finishedPage) false)
  = true.
Proof.
  destruct (caller_texts_occur_in_the_prompts "Kaito meets Anya."
              "Kaito draws his sword." "Kaito" "A swordsman." "Add a scar."
              "Fix the sword." [kaito] true false (Own A4) None monochrome None None)
    as (_ & _ & H & _).
  apply (H finishedPage "data:image/jpeg;base64,UEFHRTE="); reflexivity.
Defined.

(** ** The numbered assets of the page prompt *)

Lemma concat_app (sep : string) (l1 l2 : list string) :
  l1 <> [] -> l2 <> [] ->
  String.concat sep (l1 ++ l2) = String.concat sep l1 ++ sep ++ String.concat sep l2.
Proof.
  intros H1 H2. induction l1 as [|x [|y l1] IH]; [congruence| |].
  - destruct l2; [congruence|reflexivity].
  - change (String.concat sep ((x :: y :: l1) ++ l2))
      with (x ++ sep ++ String.concat sep ((y :: l1) ++ l2)).
    rewrite IH by congruence.
    change (String.concat sep (x :: y :: l1)) with (x ++ sep ++ String.concat sep (y :: l1)).
    now rewrite <- !append_assoc.
Qed.

Lemma includes_block (t sep : string) (n k : nat) (l : list string) :
  includes t (String.concat sep (firstn (S k) (skipn n l))) = true ->
  skipn n l <> [] ->
  includes t (String.concat sep l) = true.
Proof.
  intros H Hne.
  rewrite <- (firstn_skipn n l).
  rewrite <- (firstn_skipn (S k) (skipn n l)).
  set (pre := firstn n l). set (block := firstn (S k) (skipn n l)) in *.
  set (post := skipn (S k) (skipn n l)).
  assert (Hblock : block <> []).
  { subst block. destruct (skipn n l); [congruence|discriminate]. }
  assert (Hmid : includes t (String.concat sep (block ++ post)) = true).
  { destruct post as [|p post].
    - now rewrite app_nil_r.
    - rewrite concat_app by congruence. now apply includes_before. }
  destruct pre as [|q pre]; [exact Hmid|].
  rewrite concat_app; [|congruence|].
  - now do 2 apply includes_skip.
  - destruct block; [congruence|discriminate].
Qed.

(** X13: whatever the inputs, the page prompt lists its assets numbered from
    one without a gap: with a previous page that has an image, the previous
    page is item 1 and the three fixed items are renumbered 2, 3 and 4;
    otherwise the first line of the list is blank and the fixed items keep
    1, 2 and 3.  The first fixed item is indented by eight spaces, the others
    by four. *)
Theorem manga_assets_are_numbered_from_one
    (characters : list Character) (scene : string) (colorMode : ColorMode)
    (previousPage : option Page) (bubbles : bool) :
  includes (numberedAssets (isSome (pageWithImage previousPage)))
    (mangaPagePrompt characters scene colorMode previousPage bubbles) = true.
Proof.
  unfold mangaPagePrompt. cbv zeta.
  apply (includes_block _ nl 3 4); [|discriminate].
  cbn [firstn skipn].
  destruct (isSome (pageWithImage previousPage)); vm_compute; reflexivity.
Qed.

(** ** Character references of the page prompt *)

Lemma includes_member (t sep : string) (l : list string) :
  In t l -> includes t (String.concat sep l) = true.
Proof.
  intros H. apply includes_line. apply existsb_exists.
  exists t. split; [exact H|apply includes_self].
Qed.

Lemma characterReferences_nth (characters : list Character) :
  forall (start position : nat) (char : Character),
    nth_error characters position = Some char ->
    In (characterReferenceLabel (start + position) char)
       (characterReferences start characters).
Proof.
  induction characters as [|first rest IH]; intros start [|position] char H.
  - discriminate.
  - discriminate.
  - injection H as ->. left. now rewrite Nat.add_0_r.
  - right. rewrite <- Nat.add_succ_comm. now apply IH.
Qed.

(** X14: the label of a character in the page prompt names the place of its
    sheet among the character sheets attached: the character at position
    [i] of the roster, counted from zero, is announced as character reference
    [i + 1], and its sheet is the attachment number [i + 1] of the request,
    or number [i + 2] when the image of the previous page is attached before
    the sheets. *)
Theorem character_reference_labels_match_the_sheets
    (characters : list Character) (panelLayoutImageBase64 scene : string)
    (colorMode : ColorMode) (previousPage : option Page) (bubbles : bool)
    (position : nat) (char : Character) :
  nth_error characters position = Some char ->
  includes (characterReferenceLabel position char)
    (mangaPagePrompt characters scene colorMode previousPage bubbles) = true
  /\ nth_error
       (mangaPageParts characters panelLayoutImageBase64 scene colorMode previousPage
          bubbles)
       ((if isSome (pageWithImage previousPage) then 2 else 1) + position)
     = Some (attach (sheetImage char)).
Proof.
  intros H. split.
  - unfold mangaPagePrompt. cbv zeta.
    apply (includes_block _ nl 8 0); [|discriminate].
    cbn [firstn skipn String.concat]. apply includes_skip.
    apply includes_member. exact (characterReferences_nth characters 0 position char H).
  - assert (Hsheet : nth_error
                       (map (fun char => attach (sheetImage char)) characters
                        ++ [attach panelLayoutImageBase64])%list position
                     = Some (attach (sheetImage char))).
    { rewrite nth_error_app1.
      - now rewrite nth_error_map, H.
      - rewrite length_map. apply nth_error_Some. congruence. }
    unfold mangaPageParts. cbv zeta.
    destruct (pageWithImage previousPage) as [[page previousImage]|]; exact Hsheet.
Qed.

Lemma character_reference_labels_match_the_sheets_witness :
  includes (characterReferenceLabel 1 anya)
    (mangaPagePrompt [kaito; anya] "Kaito draws his sword." monochrome (Some finishedPage)
       false) = true
  /\ nth_error
       (mangaPageParts [kaito; anya] "data:image/png;base64,TEFZT1VU"
          "Kaito draws his sword." monochrome (Some finishedPage) false) 3
     = Some (attach (sheetImage anya)).
Proof.
  apply (character_reference_labels_match_the_sheets [kaito; anya]
           "data:image/png;base64,TEFZT1VU" "Kaito draws his sword." monochrome
           (Some finishedPage) false 1 anya).
  reflexivity.
Defined.

(** ** The roster in the prompts *)

Lemma fold_profiles (characters : list Character) :
  forall contextPrompt : string,
    fold_left (fun contextPrompt char => contextPrompt ++ characterProfile char)
      characters contextPrompt
    = contextPrompt ++ concatAll (map characterProfile characters).
Proof.
  induction characters as [|char characters IH]; intros contextPrompt;
    cbn [fold_left map concatAll fold_right].
  - now rewrite append_nil_r.
  - rewrite IH. now rewrite append_assoc.
Qed.

Lemma concatAll_in (x : string) (l : list string) :
  In x l -> exists a b, concatAll l = a ++ x ++ b.
Proof.
  induction l as [|y l IH]; intros H; [contradiction|].
  cbn [concatAll fold_right]. destruct H as [<-|H].
  - now exists EmptyString, (concatAll l).
  - destruct (IH H) as (a & b & E). exists (y ++ a), b.
    unfold concatAll in E. rewrite E. now rewrite append_assoc.
Qed.

Lemma storyOpening_profiles (worldview : string) (characters : list Character)
    (char : Character) :
  In char characters ->
  includes (worldviewCharacterLine char) (storyOpening worldview characters) = true.
Proof.
  intros H. unfold storyOpening. cbv zeta.
  destruct characters as [|first others]; [contradiction|].
  rewrite fold_profiles. apply includes_before. apply includes_skip.
  destruct (concatAll_in (characterProfile char) (map characterProfile (first :: others)))
    as (a & b & ->); [now apply in_map|].
  apply includes_within. unfold characterProfile, lines. cbn [String.concat].
  apply includes_before. apply includes_self.
Qed.

Lemma storyRequest_opening (premise worldview : string) (characters : list Character)
    (previousPages : option (list Page)) :
  exists rest attachments,
    parts (contents (storyRequest premise worldview characters previousPages))
    = textPart (storyOpening worldview characters ++ rest) :: attachments.
Proof.
  unfold storyRequest, storyContext.
  destruct previousPages as [[|first others]|].
  - exists (storyTask premise), []. unfold storyTask.
    destruct (truthy premise); cbn [parts contents]; rewrite ?append_assoc; reflexivity.
  - rewrite previousPagesLoop_spec.
    exists (previousPagesHeading
            ++ concatAll (map (fun ip => previousPageLabel (fst ip) (snd ip))
                            (filter (fun ip => included (snd ip))
                               (indexed 0 (first :: others))))
            ++ storyTask premise),
           (map (fun page => attach (imageOf page)) (filter included (first :: others))).
    unfold storyTask.
    destruct (truthy premise); cbn [parts contents app]; rewrite ?append_assoc;
      reflexivity.
  - exists (storyTask premise), []. unfold storyTask.
    destruct (truthy premise); cbn [parts contents]; rewrite ?append_assoc; reflexivity.
Qed.

(** X15: every character of the roster is presented to the backend.  The
    prompt of [generateWorldview] and the prompt of the story suggestion both
    hold, for each character, its name between the bullet mark and the colon
    followed by its description, and the prompt of the colorization holds its
    reference line.  A description that is missing or empty is replaced by the
    words No description provided. *)
Theorem every_character_is_profiled
    (premise worldview : string) (characters : list Character)
    (previousPages : option (list Page)) (char : Character) :
  In char characters ->
  includes (worldviewCharacterLine char) (worldviewPrompt characters) = true
  /\ (exists prompt attachments,
        parts (contents (storyRequest premise worldview characters previousPages))
        = textPart prompt :: attachments
        /\ includes (worldviewCharacterLine char) prompt = true)
  /\ includes (colorizeCharacterLine char) (colorizePrompt characters) = true
  /\ (truthy_opt (description char) = false ->
      worldviewCharacterLine char
      = "- **" ++ name char ++ ":** No description provided.")
  /\ (forall text,
        description char = Some text -> truthy text = true ->
        worldviewCharacterLine char = "- **" ++ name char ++ ":** " ++ text).
Proof.
  intros H. repeat split.
  - unfold worldviewPrompt.
    apply (includes_block _ nl 3 0); [|discriminate].
    cbn [firstn skipn String.concat].
    apply includes_member. now apply (in_map worldviewCharacterLine).
  - destruct (storyRequest_opening premise worldview characters previousPages)
      as (rest & attachments & E).
    exists (storyOpening worldview characters ++ rest), attachments.
    split; [exact E|]. apply includes_before. now apply storyOpening_profiles.
  - unfold colorizePrompt. cbv zeta.
    apply (includes_block _ nl 8 0); [|discriminate].
    cbn [firstn skipn String.concat]. apply includes_skip.
    apply includes_member. now apply (in_map colorizeCharacterLine).
  - intros Hfalsy. unfold worldviewCharacterLine, or_else.
    destruct (description char) as [text|]; [|reflexivity].
    cbn [truthy_opt] in Hfalsy. now rewrite Hfalsy.
  - intros text Hdescription Htruthy. unfold worldviewCharacterLine, or_else.
    now rewrite Hdescription, Htruthy.
Qed.

Lemma every_character_is_profiled_witness :
  includes "- **Anya:** No description provided." (worldviewPrompt [kaito; anya]) = true.
Proof.
  destruct (every_character_is_profiled "Anya joins the fight." "A floating city."
              [kaito; anya] None anya) as (H & _).
  - right. left. reflexivity.
  - exact H.
Defined.

(** ** Previous pages that are all skipped *)

Lemma filter_excluded (pages : list Page) :
  forallb (fun page => negb (included page)) pages = true ->
  forall index : nat,
    filter (fun ip => included (snd ip)) (indexed index pages) = []
    /\ filter included pages = [].
Proof.
  induction pages as [|page pages IH]; intros H index; [now split|].
  cbn [forallb] in H. apply andb_true_iff in H as [Hpage Hpages].
  apply negb_true_iff in Hpage.
  cbn [indexed filter snd]. rewrite Hpage. now apply IH.
Qed.

(** X16: in the story suggestion the heading that announces the previous
    pages depends on the list being non-empty, not on a page being shown.
    Without previous pages, or with an empty list, the prompt is the context
    followed by the task, and nothing is attached.  With a non-empty list of
    pages that all lack their image or their script, nothing is attached
    either and no page is labelled, yet the prompt still announces the context
    of the previous pages. *)
Theorem previous_pages_heading_without_pages
    (premise worldview : string) (characters : list Character) :
  parts (contents (storyRequest premise worldview characters None))
  = [ textPart (storyOpening worldview characters ++ storyTask premise) ]
  /\ parts (contents (storyRequest premise worldview characters (Some [])))
     = [ textPart (storyOpening worldview characters ++ storyTask premise) ]
  /\ (forall first others,
        forallb (fun page => negb (included page)) (first :: others) = true ->
        parts (contents (storyRequest premise worldview characters
                           (Some (first :: others))))
        = [ textPart (storyOpening worldview characters ++ previousPagesHeading
                      ++ storyTask premise) ]).
Proof.
  unfold storyTask. repeat split.
  - unfold storyRequest, storyContext.
    destruct (truthy premise); cbn [parts contents]; now rewrite !append_assoc.
  - unfold storyRequest, storyContext.
    destruct (truthy premise); cbn [parts contents]; now rewrite !append_assoc.
  - intros first others H. unfold storyRequest, storyContext.
    rewrite previousPagesLoop_spec.
    destruct (filter_excluded (first :: others) H 0) as [-> ->].
    cbn [map concatAll fold_right app]. rewrite append_nil_r.
    destruct (truthy premise); cbn [parts contents]; now rewrite !append_assoc.
Qed.

Lemma previous_pages_heading_without_pages_witness :
  parts (contents (storyRequest "Anya joins the fight." "A floating city." [kaito; anya]
                     (Some [pageWithoutImage])))
  = [ textPart (storyOpening "A floating city." [kaito; anya] ++ previousPagesHeading
                ++ storyTask "Anya joins the fight.") ].
Proof.
  destruct (previous_pages_heading_without_pages "Anya joins the fight."
              "A floating city." [kaito; anya]) as (_ & _ & H).
  apply (H pageWithoutImage []). reflexivity.
Defined.

(** ** A story of the declared shape *)

Lemma conforming_story_fields (v : json) :
  conforms storySuggestionSchema v = true ->
  exists fields summary panels,
    v = JObject fields
    /\ getMember "summary" fields = Some (JString summary)
    /\ getMember "panels" fields = Some (JArray panels).
Proof.
  intros H. destruct v as [| | | | |fields]; try discriminate H.
  exists fields.
  unfold storySuggestionSchema in H. cbn [conforms forallb] in H.
  apply andb_true_iff in H as [Hrequired Hdeclared].
  apply andb_true_iff in Hrequired as [Hsummary Hpanels].
  apply andb_true_iff in Hpanels as [Hpanels _].
  apply andb_true_iff in Hdeclared as [Hstring Harray].
  apply andb_true_iff in Harray as [Harray _].
  destruct (getMember "summary" fields) as [[| | |summary| |]|];
    try discriminate Hstring; try discriminate Hsummary.
  destruct (getMember "panels" fields) as [[| | | |panels|]|];
    try discriminate Harray; try discriminate Hpanels.
  now exists summary, panels.
Qed.

(** X17: a payload of the shape declared to the backend for the story
    suggestion, with every required field present and every declared field of
    its declared type, is returned as it is, unless its summary is the empty
    string: then the operation fails with its invalid-structure failure. *)
Theorem story_of_the_declared_shape
    (generateContent : GenerateContentParameters -> Result GenerateContentResponse)
    (response : GenerateContentResponse) (v : json)
    (premise worldview : string) (characters : list Character)
    (previousPages : option (list Page)) :
  (forall request, generateContent request = Ok response) ->
  JSON_parse (response_text response) = Some v ->
  conforms storySuggestionSchema v = true ->
  (getProperty "summary" v <> Some (JString EmptyString) ->
   generateDetailedStorySuggestion generateContent premise worldview characters
     previousPages = Ok v)
  /\ (getProperty "summary" v = Some (JString EmptyString) ->
      generateDetailedStorySuggestion generateContent premise worldview characters
        previousPages = Throw invalidStory).
Proof.
  intros Hbackend Hparse Hshape.
  destruct (conforming_story_fields v Hshape) as (fields & summary & panels & -> & Hs & Hp).
  unfold generateDetailedStorySuggestion, bind. rewrite Hbackend.
  unfold readStorySuggestion. rewrite Hparse.
  cbn [getProperty truthyValue isArray andb]. rewrite Hs, Hp.
  cbn [truthyValue isArray]. rewrite andb_true_r.
  split; intros Hsummary.
  - destruct summary as [|c rest]; [now contradiction Hsummary|reflexivity].
  - injection Hsummary as ->. reflexivity.
Qed.

Lemma story_of_the_declared_shape_witness :
  generateDetailedStorySuggestion (answering (payloadOf wellFormedStory))
    "Anya joins the fight." "A floating city." [kaito; anya] None
  = Ok wellFormedStoryValue.
Proof.
  apply (story_of_the_declared_shape (answering (payloadOf wellFormedStory))
           (payloadOf wellFormedStory) wellFormedStoryValue).
  - reflexivity.
  - vm_compute. reflexivity.
  - vm_compute. reflexivity.
  - vm_compute. discriminate.
Defined.
